(** * Azure OpenAI On Your Data with Elasticsearch: the notebook's helpers

    A shallow embedding of the helper cell of
    [notebooks/AzureOpenAI_OnYourData_Elasticsearch.ipynb]:
    [SampleCsvDatasets], [create_index], [index_data] and
    [chat_with_my_data], with the properties the specification states
    about them.

    Python exceptions are an error type, mutable objects and the outside
    world (the Elasticsearch cluster, the embedding provider, the clock,
    the console) are an explicit state threaded through a small
    state-and-exception monad, and name resolution goes through an explicit
    table of module-level globals. *)

From Stdlib Require Import ZArith QArith Lia.
From stdpp Require Import base option list strings pretty gmap.

Local Open Scope string_scope.
Local Open Scope list_scope.
Local Open Scope Z_scope.

(** ** Python values, exceptions and name resolution *)

(** The values a module-level name of the notebook can be bound to.  An
    object (module, class, client, function) is its attribute table. *)
Inductive value : Type :=
| VNone
| VStr (s : string)
| VInt (z : Z)
| VObject (attrs : attributes)
with attributes : Type :=
| NoAttr
| Attr (name : string) (v : value) (rest : attributes).

(** The exceptions the helpers can meet.  All of them are subclasses of
    Python's [Exception]. *)
Inductive exn : Type :=
| NameError (name : string)
| AttributeError (attr : string)
| KeyError (key : value)
| IndexError
| ValueError (msg : string)
| StatisticsError
| NotFoundError (index : string)
| BadRequestError (msg : string)
| APIError (msg : string)
| Exception (msg : string).

Inductive result (A : Type) : Type :=
| Ok (a : A)
| Raise (e : exn).
Arguments Ok {A} a.
Arguments Raise {A} e.

(** A function body that neither assigns a name nor takes it as a parameter
    reads it from the module's globals; an unbound name raises. *)
Definition load_global (globals : gmap string value) (x : string) : result value :=
  match globals !! x with
  | Some v => Ok v
  | None => Raise (NameError x)
  end.

Fixpoint find_attr (x : string) (l : attributes) : option value :=
  match l with
  | NoAttr => None
  | Attr k v l' => if String.eqb k x then Some v else find_attr x l'
  end.

Definition getattr (v : value) (attr : string) : result value :=
  match v with
  | VObject attrs =>
      match find_attr attr attrs with
      | Some a => Ok a
      | None => Raise (AttributeError attr)
      end
  | _ => Raise (AttributeError attr)
  end.

(** Truth value testing: [None], the empty string and zero are false. *)
Definition truthy (v : value) : bool :=
  match v with
  | VNone => false
  | VStr s => negb (String.eqb s "")
  | VInt z => negb (z =? 0)
  | VObject _ => true
  end.

(** ** The state-and-exception monad

    [M S A] is a computation over a mutable state [S] that returns an [A] or
    raises; the state survives an exception, as mutations made before a
    Python [raise] do. *)
Definition M (S A : Type) : Type := S -> result A * S.

Definition ret {S A} (a : A) : M S A := fun s => (Ok a, s).
Definition raise {S A} (e : exn) : M S A := fun s => (Raise e, s).
Definition bind {S A B} (c : M S A) (k : A -> M S B) : M S B :=
  fun s => match c s with
           | (Ok a, s') => k a s'
           | (Raise e, s') => (Raise e, s')
           end.
Definition lift {S A} (r : result A) : M S A := fun s => (r, s).
Definition modify {S} (f : S -> S) : M S unit := fun s => (Ok tt, f s).
Definition gets {S A} (f : S -> A) : M S A := fun s => (Ok (f s), s).

(** [try: body / except Exception as e: handler e]. *)
Definition try_except {S A} (body : M S A) (handler : exn -> M S A) : M S A :=
  fun s => match body s with
           | (Ok a, s') => (Ok a, s')
           | (Raise e, s') => handler e s'
           end.

Notation "'let*' x ':=' c 'in' k" := (bind c (fun x => k))
  (at level 10, x name, c at level 100, k at level 200).
Notation "c ';;' k" := (bind c (fun _ => k))
  (at level 100, k at level 200, right associativity).

(** [for x in l: body x]. *)
Fixpoint for_each {S A} (l : list A) (body : A -> M S unit) : M S unit :=
  match l with
  | [] => ret tt
  | x :: l' => body x ;; for_each l' body
  end.

(** ** The Elasticsearch cluster behind [elastic_client] *)

Inductive cell : Type :=
| CInt (z : Z)
| CStr (s : string).

(** A row submitted for indexing: a JSON object. *)
Definition document : Type := list (string * cell).

Inductive field_mapping : Type :=
| Keyword
| Text
| DenseVector (dims : Z) (index : bool) (similarity : string).

(** [{"properties": properties}]. *)
Record mappings : Type := Mappings { properties : gmap string field_mapping }.

Record es_index : Type := EsIndex { index_mappings : mappings; index_docs : list document }.

(** One item of a bulk body: the action line [{"index": {"_index": name}}]
    or the source line that follows it. *)
Inductive operation : Type :=
| OpIndex (_index : string)
| OpSource (row : document).

Inductive request : Type :=
| ReqDelete (index : string) (ignore_unavailable : bool)
| ReqCreate (index : string) (m : mappings)
| ReqBulk (index : string) (operations : list operation) (refresh : bool).

(** The cluster: its indices by name and the requests it has received. *)
Record cluster : Type := Cluster { indices : gmap string es_index; received : list request }.

Definition log (r : request) (es : cluster) : cluster :=
  {| indices := indices es; received := received es ++ [r] |}.

Definition set_indices (f : gmap string es_index -> gmap string es_index) (es : cluster) : cluster :=
  {| indices := f (indices es); received := received es |}.

(** Modelled from the Elasticsearch API: [indices.delete] removes the index;
    a missing index is an error unless [ignore_unavailable] is set. *)
Definition indices_delete (index : string) (ignore_unavailable : bool) : M cluster unit :=
  modify (log (ReqDelete index ignore_unavailable)) ;;
  let* idx := gets indices in
  match idx !! index with
  | Some _ => modify (set_indices (delete index))
  | None => if ignore_unavailable then ret tt else raise (NotFoundError index)
  end.

(** Modelled from the Elasticsearch API: [indices.create] makes an empty
    index with the given mappings; an index of that name must not exist. *)
Definition indices_create (index : string) (m : mappings) : M cluster unit :=
  modify (log (ReqCreate index m)) ;;
  let* idx := gets indices in
  match idx !! index with
  | Some _ => raise (BadRequestError "resource_already_exists_exception")
  | None => modify (set_indices (insert index (EsIndex m [])))
  end.

Definition add_document (index : string) (d : document)
    (idx : gmap string es_index) : gmap string es_index :=
  match idx !! index with
  | Some i => <[index := EsIndex (index_mappings i) (index_docs i ++ [d])]> idx
  | None => <[index := EsIndex (Mappings ∅) [d]]> idx
  end.

(** Modelled from the Elasticsearch API: a bulk body is a sequence of action
    lines each followed by its source; an [index] action appends the source
    to the named index, creating the index when it is missing. *)
Fixpoint bulk_apply (ops : list operation) (idx : gmap string es_index)
    : result (gmap string es_index) :=
  match ops with
  | [] => Ok idx
  | OpIndex i :: OpSource d :: ops' => bulk_apply ops' (add_document i d idx)
  | _ => Raise (BadRequestError "illegal_argument_exception")
  end.

Definition bulk (index : string) (operations : list operation) (refresh : bool) : M cluster unit :=
  modify (log (ReqBulk index operations refresh)) ;;
  let* idx := gets indices in
  let* idx' := lift (bulk_apply operations idx) in
  modify (set_indices (fun _ => idx')).

(** ** [create_index] *)

Definition create_index (index_name : string) (props : gmap string field_mapping)
    : M cluster unit :=
  let mappings := {| properties := props |} in
  (* Clean up any previously created index with the same name *)
  indices_delete index_name true ;;
  (* Create the index *)
  indices_create index_name mappings.

(** ** [index_data] *)

Definition max_operations_chunk_size : Z := 10000.

(** The local variables of [index_data] that its first loop updates. *)
Record chunking : Type := Chunking {
  operations_chunks : list (list operation);
  chunk : list operation;
  chunk_size : Z
}.

(** The body of [for row in dataset_reader]. *)
Definition index_data_step (index_name : string) (st : chunking) (row : document) : chunking :=
  if chunk_size st <? max_operations_chunk_size then
    {| operations_chunks := operations_chunks st;
       chunk := chunk st ++ [OpIndex index_name; OpSource row];
       chunk_size := chunk_size st + 1 |}
  else
    {| operations_chunks := operations_chunks st ++ [chunk st];
       chunk := [];
       chunk_size := 0 |}.

(** The value of [operations_chunks] when the bulk requests start. *)
Definition index_data_chunks (dataset_reader : list document) (index_name : string)
    : list (list operation) :=
  let st := fold_left (index_data_step index_name) dataset_reader
              {| operations_chunks := []; chunk := []; chunk_size := 0 |} in
  if (0 <? length (chunk st))%nat then operations_chunks st ++ [chunk st]
  else operations_chunks st.

Definition index_data (dataset_reader : list document) (index_name : string) : M cluster unit :=
  for_each (index_data_chunks dataset_reader index_name)
    (fun chunk => bulk index_name chunk true).

(** The bulk body that pairs each of [rows] with its action line. *)
Definition bulk_body (index_name : string) (rows : list document) : list operation :=
  flat_map (fun row => [OpIndex index_name; OpSource row]) rows.

(** The rows a bulk body carries. *)
Definition sources (ops : list operation) : list document :=
  flat_map (fun op => match op with OpSource row => [row] | OpIndex _ => [] end) ops.

(** What the first loop of [index_data] maintains: the open chunk and the
    closed ones are bulk bodies of at most [max_operations_chunk_size] rows,
    and [chunk_size] counts the rows of the open chunk. *)
Definition bounded_body (index_name : string) (c : list operation) : Prop :=
  exists rows, c = bulk_body index_name rows /\
               Z.of_nat (length rows) <= max_operations_chunk_size.

Definition chunking_inv (index_name : string) (st : chunking) : Prop :=
  (exists rows, chunk st = bulk_body index_name rows /\
                chunk_size st = Z.of_nat (length rows)) /\
  chunk_size st <= max_operations_chunk_size /\
  Forall (bounded_body index_name) (operations_chunks st).

(** ** Dataframes and [numpy.array_split] *)

(** A pandas dataframe: the column labels and the rows, each row holding one
    cell per column. *)
Record DataFrame : Type := mkDataFrame { df_columns : list string; df_rows : list (list cell) }.

(** [len(df)]. *)
Definition df_len (df : DataFrame) : Z := Z.of_nat (length (df_rows df)).

Fixpoint column_index (col : string) (cols : list string) : option nat :=
  match cols with
  | [] => None
  | c :: cols' => if String.eqb c col then Some 0%nat else S <$> column_index col cols'
  end.

(** The cells of column number [j], top to bottom. *)
Definition column_cells (j : nat) (df : DataFrame) : list cell :=
  map (fun row => nth j row (CStr "")) (df_rows df).

(** [df[col].tolist()]. *)
Definition df_getitem (df : DataFrame) (col : string) : result (list cell) :=
  match column_index col (df_columns df) with
  | Some j => Ok (column_cells j df)
  | None => Raise (KeyError (VStr col))
  end.

(** Modelled from numpy's [array_split]: with [extras = Ntotal mod Nsections],
    the first [extras] sections get [Ntotal // Nsections + 1] items and the
    others [Ntotal // Nsections]; the sections are the slices between the
    running sums of these sizes. *)
Definition section_sizes (Ntotal Nsections : nat) : list nat :=
  let Neach_section := (Ntotal / Nsections)%nat in
  let extras := (Ntotal mod Nsections)%nat in
  0%nat :: repeat (Neach_section + 1)%nat extras ++ repeat Neach_section (Nsections - extras)%nat.

Fixpoint cumsum (acc : nat) (l : list nat) : list nat :=
  match l with
  | [] => []
  | x :: l' => (acc + x)%nat :: cumsum (acc + x)%nat l'
  end.

(** [l[st:end]] for [0 <= st <= end]. *)
Definition slice {A} (st end_ : nat) (l : list A) : list A := take (end_ - st)%nat (drop st l).

Definition array_split {A} (ary : list A) (indices_or_sections : Z) : result (list (list A)) :=
  if indices_or_sections <=? 0 then Raise (ValueError "number sections must be larger than 0.")
  else
    let Nsections := Z.to_nat indices_or_sections in
    let div_points := cumsum 0 (section_sizes (length ary) Nsections) in
    Ok (map (fun i => slice (nth i div_points 0%nat) (nth (S i) div_points 0%nat) ary)
            (seq 0 Nsections)).

(** [np.array_split(df, n)]: the row blocks, each with the frame's columns. *)
Definition df_array_split (df : DataFrame) (n : Z) : result (list DataFrame) :=
  match array_split (df_rows df) n with
  | Ok parts => Ok (map (mkDataFrame (df_columns df)) parts)
  | Raise e => Raise e
  end.

(** [math.ceil(a / b)] for [b > 0]; the float quotient [len(df) / 16] is
    exact for every length below 2^53. *)
Definition ceil_div (a b : Z) : Z := - ((- a) / b).

(** The batches of [get_dataframe_with_aoai_embeddings] are made with
    [maximum_batch_size = 16]. *)
Definition maximum_batch_size : Z := 16.

(** Cutting a list into consecutive blocks of given sizes: what the slices
    of [array_split] amount to. *)
Fixpoint blocks {A} (sizes : list nat) (l : list A) : list (list A) :=
  match sizes with
  | [] => []
  | n :: sizes' => take n l :: blocks sizes' (drop n l)
  end.

(** [math.ceil(len(df) / maximum_batch_size)] and [np.array_split]: the
    partitioning step of the batcher. *)
Definition partition_dataframe (df : DataFrame) : result (list DataFrame) :=
  let number_of_buckets := ceil_div (df_len df) maximum_batch_size in
  df_array_split df number_of_buckets.

(** ** [SampleCsvDatasets] *)

Record dataset_config : Type := DatasetConfig {
  url : string;
  fieldnames : list string;
  delimiter : string
}.

Definition tab : string := String (Ascii.ascii_of_nat 9) EmptyString.

(** The class attribute [datasets], in insertion order. *)
Definition datasets : list (string * dataset_config) :=
  [("msmarco",
    {| url := "https://github.com/mayya-sharipova/msmarco/raw/main/msmarco-passagetest2019-unique.tsv";
       fieldnames := ["id"; "text"];
       delimiter := tab |})].

Fixpoint dict_get {V} (key : string) (d : list (string * V)) : option V :=
  match d with
  | [] => None
  | (k, v) :: d' => if String.eqb k key then Some v else dict_get key d'
  end.

(** [d[key]] on a dict whose keys are strings: any other key is missing. *)
Definition dict_getitem {V} (d : gmap string V) (key : value) : result V :=
  match key with
  | VStr k => match d !! k with Some v => Ok v | None => Raise (KeyError key) end
  | _ => Raise (KeyError key)
  end.

Section SampleCsvDatasets.
(** The outside world of the constructor: [urlopen(url).read().decode("utf-8")]
    and pandas' [read_csv] on the text, the delimiter and the column names. *)
Variable urlopen : string -> result string.
Variable read_csv : string -> string -> list string -> result DataFrame.

Definition _create_dataframe (dataset_name : string) (value : string) : result DataFrame :=
  match dict_get dataset_name datasets with
  | Some config => read_csv value (delimiter config) (fieldnames config)
  | None => Raise (AttributeError "get")
  end.

(** The body of [for name, config in self.datasets.items()]; [name],
    [config], [url] and [response] are local variables of [__init__]. *)
Definition init_step (_values : gmap string DataFrame) (item : string * dataset_config)
    : result (gmap string DataFrame) :=
  let '(name, config) := item in
  let url := url config in
  match urlopen url with
  | Ok response =>
      match _create_dataframe name response with
      | Ok df => Ok (<[name := df]> _values)
      | Raise e => Raise e
      end
  | Raise e => Raise e
  end.

Fixpoint init_loop (items : list (string * dataset_config)) (_values : gmap string DataFrame)
    : result (gmap string DataFrame) :=
  match items with
  | [] => Ok _values
  | item :: items' =>
      match init_step _values item with
      | Ok _values' => init_loop items' _values'
      | Raise e => Raise e
      end
  end.

(** [SampleCsvDatasets()]: the [_values] of the new object. *)
Definition __init__ : result (gmap string DataFrame) := init_loop datasets ∅.
End SampleCsvDatasets.

(** [get_dataframe(self, dataset_name, add_aoai_embeddings=False)].  Its body
    is [return self._values[name]]: [name] is neither a parameter nor
    assigned in the body, so it is read from the module's globals. *)
Definition get_dataframe (globals : gmap string value) (values : gmap string DataFrame)
    (dataset_name : value) (add_aoai_embeddings : bool) : result DataFrame :=
  match load_global globals "name" with
  | Ok name => dict_getitem values name
  | Raise e => Raise e
  end.

(** ** [get_dataframe_with_aoai_embeddings] *)

Definition throttling_interval : Q := 1 # 2.
Definition retry_count : nat := 20.

Section EmbeddingBatcher.
(** An embedding vector; the helper never looks inside one. *)
Variable vector : Type.

(** The embedding provider: what [openai.Embedding.create] answers to the
    request that arrives after [n] earlier ones, for a deployment and a
    list of inputs: the embeddings of [response["data"]] in order, or an
    exception. *)
Variable provider : nat -> string -> list cell -> result (list vector).

(** The clock: the value of the [n]-th call of [perf_counter()]. *)
Variable clock : nat -> Q.

Inductive message : Type :=
| MsgRetrying (e : exn)
| MsgAverage (records : Z) (mean : Q)
| MsgTotal (seconds : Q).

Inductive event : Type :=
| EvRequest (deployment_id : string) (input : list cell) (api_version : string)
| EvSleep (seconds : Q)
| EvPrint (line : message).

(** The machine state of one call: the object's dataframes, the local
    variables that the loops update, and the outside world. *)
Record batcher : Type := Batcher {
  _values : gmap string DataFrame;
  embeddings : list vector;
  request_times : list Q;
  success : bool;
  requests_made : nat;
  clock_reads : nat;
  trace : list event
}.

Definition set_embeddings (v : list vector) (s : batcher) : batcher :=
  Batcher (_values s) v (request_times s) (success s) (requests_made s) (clock_reads s) (trace s).
Definition set_request_times (v : list Q) (s : batcher) : batcher :=
  Batcher (_values s) (embeddings s) v (success s) (requests_made s) (clock_reads s) (trace s).
Definition set_success (v : bool) (s : batcher) : batcher :=
  Batcher (_values s) (embeddings s) (request_times s) v (requests_made s) (clock_reads s) (trace s).
Definition emit (e : event) (s : batcher) : batcher :=
  Batcher (_values s) (embeddings s) (request_times s) (success s) (requests_made s)
    (clock_reads s) (trace s ++ [e]).

Definition perf_counter : M batcher Q :=
  fun s => (Ok (clock (clock_reads s)),
            Batcher (_values s) (embeddings s) (request_times s) (success s) (requests_made s)
              (S (clock_reads s)) (trace s)).

Definition sleep (seconds : Q) : M batcher unit := modify (emit (EvSleep seconds)).
Definition print (line : message) : M batcher unit := modify (emit (EvPrint line)).

Definition Embedding_create (deployment_id : string) (input : list cell) (api_version : string)
    : M batcher (list vector) :=
  fun s => (provider (requests_made s) deployment_id input,
            Batcher (_values s) (embeddings s) (request_times s) (success s)
              (S (requests_made s)) (clock_reads s)
              (trace s ++ [EvRequest deployment_id input api_version])).

Definition sum_Q (l : list Q) : Q := fold_right Qplus 0%Q l.

(** [statistics.mean]. *)
Definition mean (l : list Q) : result Q :=
  match l with
  | [] => Raise StatisticsError
  | _ => Ok (sum_Q l / inject_Z (Z.of_nat (length l)))%Q
  end.

(** One pass of [for i in range(retry_count)]: the [try] and its
    [except Exception] handler. *)
Definition attempt (embedding_model_deployment_name text_column_name : string)
    (partition : DataFrame) (i : nat) : M batcher unit :=
  try_except
    (let* request_start := perf_counter in
     let* input := lift (df_getitem partition text_column_name) in
     let* data := Embedding_create embedding_model_deployment_name input "2023-03-15-preview" in
     let* acc := gets embeddings in
     modify (set_embeddings (acc ++ data)) ;;
     sleep throttling_interval ;;
     let* request_end := perf_counter in
     let* times := gets request_times in
     modify (set_request_times (times ++ [(request_end - request_start)%Q])) ;;
     modify (set_success true))
    (fun e =>
       print (MsgRetrying e) ;;
       sleep 5%Q).

(** The body of [for partition in partitions]. *)
Definition process_partition (embedding_model_deployment_name text_column_name : string)
    (partition : DataFrame) : M batcher unit :=
  modify (set_success false) ;;
  for_each (seq 0 retry_count)
    (attempt embedding_model_deployment_name text_column_name partition) ;;
  let* ok := gets success in
  if negb ok then
    raise (Exception "Unable to generate embeddings (see previous error output for more information.)")
  else ret tt.

(** [df[col] == embeddings]: the column is read and compared with the
    list; the result is dropped and nothing is stored.  pandas refuses
    operands of different lengths, and, as each embedding is itself a list,
    a non-empty list of embeddings is a two-dimensional array whose shape
    does not match the column's. *)
Definition compare_column (df : DataFrame) (col : value) (embeddings : list vector)
    : result unit :=
  match col with
  | VStr c =>
      match df_getitem df c with
      | Ok cells =>
          if (length cells =? length embeddings)%nat then Ok tt
          else Raise (ValueError "Lengths must match to compare")
      | Raise e => Raise e
      end
  | _ => Raise (KeyError col)
  end.

Definition get_dataframe_with_aoai_embeddings (globals : gmap string value)
    (dataset_name embedding_model_deployment_name : string)
    (text_column_name embeddings_column_name model_name : string) : M batcher unit :=
  let* values := gets _values in
  let* df := lift (dict_getitem values (VStr dataset_name)) in
  let number_of_buckets := ceil_div (df_len df) maximum_batch_size in
  let* partitions := lift (df_array_split df number_of_buckets) in
  modify (set_embeddings []) ;;
  modify (set_request_times []) ;;
  let* start := perf_counter in
  for_each partitions
    (process_partition embedding_model_deployment_name text_column_name) ;;
  let* end_ := perf_counter in
  let* text_embeddings_column_name := lift (load_global globals "text_embeddings_column_name") in
  let* acc := gets embeddings in
  lift (compare_column df text_embeddings_column_name acc) ;;
  let* partition := lift (match last partitions with
                          | Some p => Ok p
                          | None => Raise (NameError "partition")
                          end) in
  let* times := gets request_times in
  let* average := lift (mean times) in
  print (MsgAverage (df_len partition) average) ;;
  print (MsgTotal (end_ - start)%Q).

(** The pauses of [throttling_interval] in a trace. *)
Definition is_throttling_pause (e : event) : bool :=
  match e with
  | EvSleep d => Qeq_bool d throttling_interval
  | _ => false
  end.

Definition throttling_pauses (s : batcher) : nat :=
  length (List.filter is_throttling_pause (trace s)).

(** A machine that has made no request and read no clock yet. *)
Definition fresh (values : gmap string DataFrame) : batcher :=
  Batcher values [] [] false 0 0 [].
End EmbeddingBatcher.

Arguments _values {vector} b.
Arguments embeddings {vector} b.
Arguments request_times {vector} b.
Arguments success {vector} b.
Arguments requests_made {vector} b.
Arguments clock_reads {vector} b.
Arguments trace {vector} b.
Arguments throttling_pauses {vector} s.
Arguments fresh {vector} values.
Arguments get_dataframe_with_aoai_embeddings {vector} provider clock globals dataset_name
  embedding_model_deployment_name text_column_name embeddings_column_name model_name.
Arguments process_partition {vector} provider clock embedding_model_deployment_name
  text_column_name partition.
Arguments attempt {vector} provider clock embedding_model_deployment_name text_column_name
  partition i.

(** The message of the fatal error of the batcher. *)
Definition unable_to_generate : exn :=
  Exception "Unable to generate embeddings (see previous error output for more information.)".

(** ** [chat_with_my_data] *)

(** The parameters of the Elasticsearch data source of a chat request. *)
Record data_source : Type := DataSource {
  endpoint : string;
  encodedApiKey : string;
  indexName : string;
  queryType : string;
  embeddingModelId : value;
  embeddingEndpoint : value;
  embeddingKey : value
}.

Record chat_request : Type := ChatRequest {
  user_message : string;
  dataSources : list data_source;
  deployment_id : string
}.

(** [embedding_config.get(key, None)]. *)
Definition config_get (embedding_config : gmap string value) (key : string) : value :=
  default VNone (embedding_config !! key).

(** [a and b], [a or b] and [not a] on values. *)
Definition py_and (a b : value) : value := if truthy a then b else a.
Definition py_or (a b : value) : value := if truthy a then a else b.
Definition py_not (a : value) : bool := negb (truthy a).

(** How a value prints inside an f-string. *)
Definition format_value (v : value) : string :=
  match v with
  | VNone => "None"
  | VStr s => s
  | VInt z => pretty z
  | VObject _ => "<object>"
  end.

(** Line 227-228: [None] when neither the Azure OpenAI embedding model nor
    its key is supplied, else the URL built from [openapi.api_base]. *)
Definition embedding_endpoint (globals : gmap string value)
    (aoai_embedding_model aoai_embedding_key : value) : result value :=
  if py_not aoai_embedding_model && py_not aoai_embedding_key then Ok VNone
  else
    match load_global globals "openapi" with
    | Ok openapi =>
        match getattr openapi "api_base" with
        | Ok api_base =>
            Ok (VStr (format_value api_base +:+ "/openai/deployments/" +:+
                      format_value aoai_embedding_model +:+
                      "/embeddings?api-version=2023-03-15-preview"))
        | Raise e => Raise e
        end
    | Raise e => Raise e
    end.

(** Line 230. *)
Definition select_query_type
    (aoai_embedding_endpoint aoai_embedding_key elasticsearch_embedding_model : value) : string :=
  if truthy (py_or (py_and aoai_embedding_endpoint aoai_embedding_key)
                   elasticsearch_embedding_model)
  then "vector" else "simple".

(** What a call leaves behind: the chat requests sent and the lines
    printed. *)
Record chat_world : Type := ChatWorld { sent : list chat_request; printed : list string }.

Section QueryDispatcher.
(** [openai.ChatCompletion.create]: the message contents of the choices
    of the completion, or an exception. *)
Variable ChatCompletion_create : chat_request -> result (list string).

Definition chat_with_my_data (globals : gmap string value)
    (chat_query aoai_deployment_name elasticsearch_endpoint elasticsearch_api_key
       index_name : string)
    (embedding_config : gmap string value) : M chat_world unit :=
  let elasticsearch_embedding_model := config_get embedding_config "elasticsearch_embedding_model" in
  let aoai_embedding_model := config_get embedding_config "aoai_embedding_model" in
  let aoai_embedding_key := config_get embedding_config "aoai_embedding_key" in
  let* aoai_embedding_endpoint :=
    lift (embedding_endpoint globals aoai_embedding_model aoai_embedding_key) in
  let query_type :=
    select_query_type aoai_embedding_endpoint aoai_embedding_key elasticsearch_embedding_model in
  let request :=
    {| user_message := chat_query;
       dataSources :=
         [{| endpoint := elasticsearch_endpoint;
             encodedApiKey := elasticsearch_api_key;
             indexName := index_name;
             queryType := query_type;
             embeddingModelId := elasticsearch_embedding_model;
             embeddingEndpoint := aoai_embedding_endpoint;
             embeddingKey := aoai_embedding_key |}];
       deployment_id := aoai_deployment_name |} in
  modify (fun w => ChatWorld (sent w ++ [request]) (printed w)) ;;
  let* choices := lift (ChatCompletion_create request) in
  match choices with
  | content :: _ => modify (fun w => ChatWorld (sent w) (printed w ++ [content]))
  | [] => raise IndexError
  end.
End QueryDispatcher.

(** The query type of the requests a call has sent. *)
Definition query_types (w : chat_world) : list string :=
  flat_map (fun r => map queryType (dataSources r)) (sent w).

(** ** The notebook's module-level names *)

(** What the user types into the prompts of the configuration cell. *)
Record inputs : Type := Inputs {
  in_elasticsearch_endpoint : string;
  in_elasticsearch_api_key : string;
  in_api_base : string;
  in_api_key : string;
  in_chat_model_deployment_name : string;
  in_embedding_model_deployment_name : string
}.

Definition opaque : value := VObject NoAttr.

(** Every name that some cell of the notebook binds at module level: the
    imports, the helper definitions and the variables of the walkthrough.
    At any point of a run the bound names are among these. *)
Definition notebook_globals (i : inputs) : gmap string value :=
  list_to_map
    [("math", opaque); ("np", opaque); ("pd", opaque); ("statistics", opaque);
     ("StringIO", opaque); ("sleep", opaque); ("perf_counter", opaque); ("urlopen", opaque);
     ("SampleCsvDatasets", opaque); ("create_index", opaque); ("index_data", opaque);
     ("chat_with_my_data", opaque);
     ("getpass", opaque);
     ("openai", VObject (Attr "api_base" (VStr (in_api_base i))
                        (Attr "api_key" (VStr (in_api_key i))
                        (Attr "requestssession" opaque NoAttr))));
     ("Elasticsearch", opaque);
     ("elasticsearch_endpoint", VStr (in_elasticsearch_endpoint i));
     ("elasticsearch_api_key", VStr (in_elasticsearch_api_key i));
     ("chat_model_deployment_name", VStr (in_chat_model_deployment_name i));
     ("embedding_model_deployment_name", VStr (in_embedding_model_deployment_name i));
     ("datasets", opaque); ("elastic_client", opaque);
     ("Session", opaque); ("HTTPAdapter", opaque); ("OnYourDataAdapter", opaque);
     ("session", opaque);
     ("elasticsearch_index_name", VStr "msmarco-passagetest2019-unique");
     ("mapping_properties", opaque); ("dataframe", opaque); ("chat_query", opaque);
     ("IngestClient", opaque); ("pipeline_id", VStr "msmarco-minilm-l-12-v3");
     ("ingest_processors", opaque); ("on_failure", opaque); ("ingest_client", opaque);
     ("elasticsearch_embeddings_index_name",
        VStr "msmarco-passagetest2019-unique-msmarco-minilm-l-12-v3");
     ("reindex_source", opaque); ("reindex_dest", opaque); ("response", opaque);
     ("is_completed", opaque); ("task", opaque);
     ("aoai_embeddings_index_name",
        VStr ("msmarco-passagetest2019-unique-" +:+ in_embedding_model_deployment_name i))].

(** A table of [n] rows with the notebook's columns. *)
Definition numbered_text (i : nat) : list cell := [CInt (Z.of_nat i); CStr (pretty i)].
Definition numbered_table (n : nat) : DataFrame :=
  mkDataFrame ["id"; "text"] (map numbered_text (seq 0 n)).

(** ** Concrete runs

    The inputs on which the theorems below are exercised. *)

Definition sample_inputs : inputs :=
  {| in_elasticsearch_endpoint := "https://es.example";
     in_elasticsearch_api_key := "es-key";
     in_api_base := "https://aoai.example";
     in_api_key := "aoai-key";
     in_chat_model_deployment_name := "gpt-35-turbo";
     in_embedding_model_deployment_name := "text-embedding-ada-002" |}.

Definition numbered_row (i : Z) : document := [("id", CInt i)].

(** Rows numbered [first], [first + 1], ... *)
Definition numbered_rows (first count : Z) : list document :=
  map (fun i => numbered_row (Z.of_nat i)) (seq (Z.to_nat first) (Z.to_nat count)).

Definition empty_cluster : cluster := {| indices := ∅; received := [] |}.

(** A download and a parse that give a one-row table. *)
Definition sample_urlopen (url : string) : result string := Ok ("0" +:+ tab +:+ "hello").
Definition sample_read_csv (text delimiter : string) (names : list string) : result DataFrame :=
  Ok (mkDataFrame names [[CInt 0; CStr "hello"]]).

(** A provider that answers every request, with one vector per input. *)
Definition embed (c : cell) : string :=
  match c with
  | CStr s => "E(" +:+ s +:+ ")"
  | CInt z => "E(" +:+ pretty z +:+ ")"
  end.
Definition echo_provider (n : nat) (deployment_id : string) (input : list cell)
    : result (list string) := Ok (map embed input).

(** A provider that answers the first 20 requests and fails from then on. *)
Definition flaky_provider (n : nat) (deployment_id : string) (input : list cell)
    : result (list string) :=
  if (n <? 20)%nat then Ok (map embed input) else Raise (APIError "429 Too Many Requests").

Definition sample_clock (n : nat) : Q := inject_Z (Z.of_nat n).

Definition two_rows : DataFrame :=
  mkDataFrame ["id"; "text"] [[CInt 0; CStr "a"]; [CInt 1; CStr "b"]].

(** [datasets.get_dataframe_with_aoai_embeddings("msmarco", embedding_model_deployment_name)]
    as the notebook calls it, with the defaults of the other parameters, on
    an object that holds [df] under ["msmarco"]. *)
Definition notebook_call (provider : nat -> string -> list cell -> result (list string))
    (df : DataFrame) : result unit * batcher string :=
  get_dataframe_with_aoai_embeddings provider sample_clock
    (notebook_globals sample_inputs)
    "msmarco" (in_embedding_model_deployment_name sample_inputs)
    "text" "text_embedding.aoai_predicted_value" "text-embedding-ada-002"
    (fresh {["msmarco" := df]}).

(** The two batches of [numbered_table 17]. *)
Definition seventeen_batches : list DataFrame :=
  [mkDataFrame ["id"; "text"] (map numbered_text (seq 0 9));
   mkDataFrame ["id"; "text"] (map numbered_text (seq 9 8))].


(** ** What [index_data] submits *)

(** The rows that the bulk requests of [index_data] carry, in order. *)
Definition submitted_rows (dataset_reader : list document) (index_name : string)
    : list document :=
  concat (map sources (index_data_chunks dataset_reader index_name)).

(** [index_data] takes its client as an argument: [index_data_on] is the
    function over any client, a state [S] with a [bulk] operation that may
    raise.  [index_data] above is its instance at the cluster. *)
Definition index_data_on {S} (client_bulk : string -> list operation -> bool -> M S unit)
    (dataset_reader : list document) (index_name : string) : M S unit :=
  for_each (index_data_chunks dataset_reader index_name)
    (fun chunk => client_bulk index_name chunk true).

(** A client that records the bulk requests it is sent; its server answers
    the request that arrives after [n] earlier ones with [outcome n]:
    acceptance or an exception. *)
Definition recording_bulk (outcome : nat -> result unit)
    (index : string) (operations : list operation) (refresh : bool)
    : M (list request) unit :=
  fun received => (outcome (length received), received ++ [ReqBulk index operations refresh]).

(** The number of rows of a chunk. *)
Definition chunk_rows (c : list operation) : Z := Z.of_nat (length (sources c)).

(** What the first loop of [index_data] has counted after [m] rows: a closed
    chunk of [max_operations_chunk_size] rows for every
    [max_operations_chunk_size + 1] rows read, and the rest in the open
    chunk. *)
Definition counting_inv (m : Z) (st : chunking) : Prop :=
  map chunk_rows (operations_chunks st) =
    repeat max_operations_chunk_size (Z.to_nat (m / (max_operations_chunk_size + 1))) /\
  chunk_size st = m mod (max_operations_chunk_size + 1) /\
  chunk_rows (chunk st) = m mod (max_operations_chunk_size + 1).

Definition sum_Z (l : list Z) : Z := fold_right Z.add 0 l.

Definition few_rows : list document := numbered_rows 0 3.

(** ** Reading a run of the batcher *)

(** The pauses of the [except] handler, [sleep(5)]. *)
Definition is_backoff_pause (e : event) : bool :=
  match e with
  | EvSleep d => Qeq_bool d 5
  | _ => false
  end.

Definition backoff_pauses {vector} (s : batcher vector) : nat :=
  length (List.filter is_backoff_pause (trace s)).

(** Whether the provider answers request number [n], and with what. *)
Definition answers_at {vector} (provider : nat -> string -> list cell -> result (list vector))
    (deployment_id : string) (input : list cell) (n : nat) : bool :=
  match provider n deployment_id input with
  | Ok _ => true
  | Raise _ => false
  end.

Definition data_at {vector} (provider : nat -> string -> list cell -> result (list vector))
    (deployment_id : string) (input : list cell) (n : nat) : list vector :=
  match provider n deployment_id input with
  | Ok data => data
  | Raise _ => []
  end.

(** Whether one of the [retry_count] requests of a batch, numbered from
    [first], is answered. *)
Definition batch_answered {vector}
    (provider : nat -> string -> list cell -> result (list vector))
    (deployment_id : string) (input : list cell) (first : nat) : bool :=
  existsb (answers_at provider deployment_id input) (seq first retry_count).

(** A provider that never answers. *)
Definition silent_provider (n : nat) (deployment_id : string) (input : list cell)
    : result (list string) := Raise (APIError "503 Service Unavailable").

(** A provider that answers the first request of every batch and fails the
    nineteen that follow. *)
Definition first_attempt_provider (n : nat) (deployment_id : string) (input : list cell)
    : result (list string) :=
  if (n mod retry_count =? 0)%nat then Ok (map embed input)
  else Raise (APIError "429 Too Many Requests").

(** A table without a text column. *)
Definition ids_only : DataFrame := mkDataFrame ["id"] [[CInt 0]; [CInt 1]].

(** ** The reindex monitor

    The cell that waits for the reindex task:
    [is_completed = False] /
    [while not is_completed: sleep(1); task = elastic_client.tasks.get(...);
     is_completed = task.get("completed")] /
    [print("Reindexing is complete!")]. *)

(** What the cell leaves behind: the status reads made, the pauses taken and
    the lines printed. *)
Record monitor : Type := Monitor { polls : nat; naps : list Q; output : list string }.

Section ReindexMonitor.
(** [elastic_client.tasks.get(task_id=response.get("task"))]: the task
    status that the [n]-th read returns, or an exception. *)
Variable tasks_get : nat -> result (gmap string value).

(** The body of the loop; its value is the new [is_completed]. *)
Definition poll : M monitor value :=
  modify (fun s => Monitor (polls s) (naps s ++ [1%Q]) (output s)) ;;
  let* n := gets polls in
  modify (fun s => Monitor (S (polls s)) (naps s) (output s)) ;;
  let* task := lift (tasks_get n) in
  ret (config_get task "completed").

(** The [while] loop, with [fuel] bounding the number of tests of its
    condition: [None] when the fuel runs out before the loop ends. *)
Fixpoint wait_loop (fuel : nat) (is_completed : value) (s : monitor)
    : option (result unit * monitor) :=
  match fuel with
  | O => None
  | S fuel' =>
      if negb (truthy is_completed) then
        match poll s with
        | (Ok is_completed', s') => wait_loop fuel' is_completed' s'
        | (Raise e, s') => Some (Raise e, s')
        end
      else Some (Ok tt, s)
  end.

(** The cell: [False] is the integer 0, as [bool] is a subclass of [int]. *)
Definition wait_for_reindex (fuel : nat) (s : monitor) : option (result unit * monitor) :=
  match wait_loop fuel (VInt 0) s with
  | Some (Ok _, s') =>
      Some (Ok tt, Monitor (polls s') (naps s') (output s' ++ ["Reindexing is complete!"]))
  | other => other
  end.
End ReindexMonitor.

(** A task that reports completion at its third status read. *)
Definition third_read_completes (n : nat) : result (gmap string value) :=
  Ok {["completed" := VInt (if (n <? 2)%nat then 0 else 1)]}.

(** A task that never reports completion. *)
Definition never_completes (n : nat) : result (gmap string value) :=
  Ok {["completed" := VInt 0]}.

(** Module-level names with [openapi] bound as well, to the [openai]
    module. *)
Definition globals_with_openapi (i : inputs) : gmap string value :=
  <["openapi" := VObject (Attr "api_base" (VStr (in_api_base i)) NoAttr)]> (notebook_globals i).

(** The chat service answering with one choice. *)
Definition one_choice (request : chat_request) : result (list string) :=
  Ok ["It is sunny in Jamaica."].

(** * Properties *)

(** ** The monad *)

Lemma bind_ok {S A B} (c : M S A) (k : A -> M S B) s a s' :
  c s = (Ok a, s') -> bind c k s = k a s'.
Proof. intros H. unfold bind. now rewrite H. Qed.

Lemma bind_raise {S A B} (c : M S A) (k : A -> M S B) s e s' :
  c s = (Raise e, s') -> bind c k s = (Raise e, s').
Proof. intros H. unfold bind. now rewrite H. Qed.

(** ** [index_data] *)

Section IndexData.
Variable index_name : string.

Let step := index_data_step index_name.
Let body := bulk_body index_name.

Lemma bulk_body_app rows1 rows2 : body (rows1 ++ rows2) = body rows1 ++ body rows2.
Proof. apply flat_map_app. Qed.

Lemma sources_bulk_body rows : sources (body rows) = rows.
Proof. induction rows as [|r rows IH]; simpl; [reflexivity | now rewrite IH]. Qed.

Lemma length_bulk_body rows : length (body rows) = (2 * length rows)%nat.
Proof. induction rows as [|r rows IH]; simpl; [reflexivity | rewrite IH; lia]. Qed.

(** While there is room, the loop appends a row and its action line. *)
Lemma index_data_fill rows : forall st,
  chunk_size st + Z.of_nat (length rows) <= max_operations_chunk_size ->
  fold_left step rows st =
    {| operations_chunks := operations_chunks st;
       chunk := chunk st ++ body rows;
       chunk_size := chunk_size st + Z.of_nat (length rows) |}.
Proof.
  induction rows as [|r rows IH]; intros st Hroom.
  - simpl. rewrite app_nil_r, Z.add_0_r. now destruct st.
  - cbn [fold_left]. rewrite IH.
    + unfold step, index_data_step.
      destruct (Z.ltb_spec (chunk_size st) max_operations_chunk_size) as [_|Hfull];
        [| cbn [length] in Hroom; lia].
      cbn [operations_chunks chunk chunk_size]. f_equal.
      * now rewrite <- app_assoc.
      * cbn [length]. lia.
    + unfold step, index_data_step.
      destruct (Z.ltb_spec (chunk_size st) max_operations_chunk_size) as [_|Hfull];
        cbn [length] in Hroom; cbn [chunk_size]; lia.
Qed.

(** On a full chunk the loop closes the chunk; the row in hand goes
    nowhere. *)
Lemma index_data_overflow st row :
  chunk_size st = max_operations_chunk_size ->
  step st row =
    {| operations_chunks := operations_chunks st ++ [chunk st]; chunk := []; chunk_size := 0 |}.
Proof.
  intros Hfull. unfold step, index_data_step. rewrite Hfull.
  now rewrite Z.ltb_irrefl.
Qed.

(** A full chunk, the row that meets it, and what follows. *)
Lemma index_data_full_then rows row rest ocs :
  Z.of_nat (length rows) = max_operations_chunk_size ->
  fold_left step (rows ++ row :: rest)
    {| operations_chunks := ocs; chunk := []; chunk_size := 0 |} =
  fold_left step rest
    {| operations_chunks := ocs ++ [body rows]; chunk := []; chunk_size := 0 |}.
Proof.
  intros Hlen. rewrite fold_left_app, (index_data_fill rows) by (cbn [chunk_size]; lia).
  cbn [fold_left operations_chunks chunk chunk_size].
  rewrite index_data_overflow by (cbn [chunk_size]; lia). reflexivity.
Qed.

(** Every bulk body built from rows is accepted by the cluster. *)
Lemma bulk_apply_body rows : forall idx, exists idx', bulk_apply (body rows) idx = Ok idx'.
Proof.
  induction rows as [|r rows IH]; intros idx; simpl; [eauto | apply IH].
Qed.

Lemma bulk_body_ok rows es :
  exists es', bulk index_name (body rows) true es = (Ok tt, es') /\
    received es' = received es ++ [ReqBulk index_name (body rows) true].
Proof.
  destruct (bulk_apply_body rows (indices es)) as [idx' Hidx].
  unfold bulk, bind, modify, gets, lift. cbn. rewrite Hidx. cbn. eauto.
Qed.

Lemma for_each_bulk_ok chunks : forall es,
  exists es', for_each (map body chunks) (fun c => bulk index_name c true) es = (Ok tt, es') /\
    received es' = received es ++ map (fun c => ReqBulk index_name c true) (map body chunks).
Proof.
  induction chunks as [|c chunks IH]; intros es; cbn [map for_each].
  - exists es. rewrite app_nil_r. now unfold ret.
  - destruct (bulk_body_ok c es) as (es1 & Hrun & Hlog).
    destruct (IH es1) as (es2 & Hrun2 & Hlog2).
    exists es2. rewrite (bind_ok _ _ _ _ _ Hrun). split; [exact Hrun2|].
    rewrite Hlog2, Hlog, <- app_assoc. reflexivity.
Qed.

Lemma chunking_inv_step st row :
  chunking_inv index_name st -> chunking_inv index_name (step st row).
Proof.
  intros ((rows & Hchunk & Hsize) & Hle & Hall).
  unfold step, index_data_step.
  destruct (Z.ltb_spec (chunk_size st) max_operations_chunk_size) as [Hlt|Hge];
    repeat split; cbn [operations_chunks chunk chunk_size].
  - exists (rows ++ [row]). rewrite bulk_body_app, Hchunk, length_app. cbn. split; [reflexivity | lia].
  - lia.
  - exact Hall.
  - exists []. now cbn.
  - unfold max_operations_chunk_size. lia.
  - apply Forall_app. split; [exact Hall|]. constructor; [|constructor].
    exists rows. split; [exact Hchunk | lia].
Qed.

Lemma chunking_inv_fold rows : forall st,
  chunking_inv index_name st -> chunking_inv index_name (fold_left step rows st).
Proof.
  induction rows as [|r rows IH]; intros st Hinv; cbn [fold_left];
    [exact Hinv | apply IH, chunking_inv_step, Hinv].
Qed.

Lemma index_data_chunks_bounded rows :
  Forall (bounded_body index_name) (index_data_chunks rows index_name).
Proof.
  unfold index_data_chunks.
  set (st := fold_left _ rows _).
  assert (Hinv : chunking_inv index_name st).
  { apply chunking_inv_fold. repeat split; cbn; [exists []; now cbn | unfold max_operations_chunk_size; lia | constructor]. }
  destruct Hinv as ((rs & Hchunk & Hsize) & Hle & Hall).
  destruct (0 <? length (chunk st))%nat; [|exact Hall].
  apply Forall_app. split; [exact Hall|]. constructor; [|constructor].
  exists rs. split; [exact Hchunk | lia].
Qed.

Lemma bounded_bodies chunks :
  Forall (bounded_body index_name) chunks ->
  exists rowss, chunks = map body rowss /\
    Forall (fun rows => Z.of_nat (length rows) <= max_operations_chunk_size) rowss.
Proof.
  induction 1 as [|c chunks (rows & -> & Hle) _ (rowss & -> & Hall)].
  - exists []. split; [reflexivity | constructor].
  - exists (rows :: rowss). split; [reflexivity | now constructor].
Qed.
End IndexData.

(** [index_data] always completes, and the cluster receives one bulk request
    with [refresh=True] per chunk; every chunk pairs each of its rows with an
    [index] action for [index_name] and has at most 10000 rows. *)
Lemma index_data_requests rows index_name es :
  exists es' rowss,
    index_data rows index_name es = (Ok tt, es') /\
    index_data_chunks rows index_name = map (bulk_body index_name) rowss /\
    received es' =
      received es ++ map (fun rs => ReqBulk index_name (bulk_body index_name rs) true) rowss /\
    Forall (fun rs => Z.of_nat (length rs) <= max_operations_chunk_size) rowss.
Proof.
  destruct (bounded_bodies index_name _ (index_data_chunks_bounded index_name rows))
    as (rowss & Hchunks & Hall).
  destruct (for_each_bulk_ok index_name rowss es) as (es' & Hrun & Hlog).
  exists es', rowss. unfold index_data. rewrite Hchunks.
  repeat split; [exact Hrun | | exact Hall].
  rewrite Hlog, map_map. reflexivity.
Qed.

Lemma split_front {A} (l : list A) (n : Z) :
  0 <= n < Z.of_nat (length l) ->
  exists front x back, l = front ++ x :: back /\ Z.of_nat (length front) = n.
Proof.
  intros Hn.
  destruct (drop (Z.to_nat n) l) as [|x back] eqn:Hdrop.
  - apply (f_equal (@length A)) in Hdrop. rewrite length_drop in Hdrop. cbn in Hdrop. lia.
  - exists (take (Z.to_nat n) l), x, back. split.
    + rewrite <- Hdrop. symmetry. apply take_drop.
    + rewrite length_take. lia.
Qed.

(** C5 (as the code behaves): on any 25000 rows [index_data] issues three
    bulk requests, carrying the first 10000 rows, the 10000 rows after the
    10001st, and the 4998 rows after the 20002nd: the rows [x] and [y] that
    meet a full chunk are in no request, and the third request carries 4998
    rows where the claim says 5000. *)
Theorem index_data_25000_rows index_name rows es :
  Z.of_nat (length rows) = 25000 ->
  exists es' a x b y c,
    rows = a ++ x :: b ++ y :: c /\
    index_data rows index_name es = (Ok tt, es') /\
    received es' = received es ++
      [ReqBulk index_name (bulk_body index_name a) true;
       ReqBulk index_name (bulk_body index_name b) true;
       ReqBulk index_name (bulk_body index_name c) true] /\
    Z.of_nat (length a) = 10000 /\ Z.of_nat (length b) = 10000 /\
    Z.of_nat (length c) = 4998.
Proof.
  intros Hlen.
  destruct (split_front rows 10000) as (a & x & r1 & -> & Ha); [lia|].
  rewrite length_app in Hlen. cbn [length] in Hlen.
  destruct (split_front r1 10000) as (b & y & c & -> & Hb); [lia|].
  rewrite length_app in Hlen. cbn [length] in Hlen.
  assert (Hc : Z.of_nat (length c) = 4998) by lia.
  assert (Hchunks : index_data_chunks (a ++ x :: b ++ y :: c) index_name =
                    map (bulk_body index_name) [a; b; c]).
  { unfold index_data_chunks.
    rewrite index_data_full_then by exact Ha.
    rewrite index_data_full_then by exact Hb.
    rewrite index_data_fill by (cbn [chunk_size]; unfold max_operations_chunk_size; lia).
    cbn [operations_chunks chunk app map].
    rewrite length_bulk_body.
    destruct (Nat.ltb_spec 0 (2 * length c)) as [_|Hzero]; [reflexivity | lia]. }
  destruct (for_each_bulk_ok index_name [a; b; c] es) as (es' & Hrun & Hlog).
  exists es', a, x, b, y, c. unfold index_data. rewrite Hchunks.
  repeat split; try assumption.
Qed.

(** C6 (as the code behaves): the row that arrives when the open chunk
    holds 10000 rows is dropped.  On 10000 rows followed by [x] the cluster
    receives one bulk request, which carries the 10000 rows and not [x]. *)
Theorem index_data_drops_row index_name rows x es :
  Z.of_nat (length rows) = 10000 ->
  exists es',
    index_data (rows ++ [x]) index_name es = (Ok tt, es') /\
    received es' = received es ++ [ReqBulk index_name (bulk_body index_name rows) true] /\
    sources (bulk_body index_name rows) = rows.
Proof.
  intros Hlen.
  assert (Hchunks : index_data_chunks (rows ++ [x]) index_name =
                    map (bulk_body index_name) [rows]).
  { unfold index_data_chunks. rewrite index_data_full_then by exact Hlen. reflexivity. }
  destruct (for_each_bulk_ok index_name [rows] es) as (es' & Hrun & Hlog).
  exists es'. unfold index_data. rewrite Hchunks.
  repeat split; [exact Hrun | exact Hlog | apply sources_bulk_body].
Qed.

Lemma index_data_25000_rows_witness :
  Z.of_nat (length (numbered_rows 0 25000)) = 25000 /\
  exists es' a x b y c,
    numbered_rows 0 25000 = a ++ x :: b ++ y :: c /\
    index_data (numbered_rows 0 25000) "msmarco" empty_cluster = (Ok tt, es') /\
    received es' = received empty_cluster ++
      [ReqBulk "msmarco" (bulk_body "msmarco" a) true;
       ReqBulk "msmarco" (bulk_body "msmarco" b) true;
       ReqBulk "msmarco" (bulk_body "msmarco" c) true] /\
    Z.of_nat (length a) = 10000 /\ Z.of_nat (length b) = 10000 /\
    Z.of_nat (length c) = 4998.
Proof.
  split; [vm_compute; reflexivity|].
  apply (index_data_25000_rows "msmarco" (numbered_rows 0 25000) empty_cluster).
  vm_compute; reflexivity.
Defined.

Lemma index_data_drops_row_witness :
  Z.of_nat (length (numbered_rows 0 10000)) = 10000 /\
  exists es',
    index_data (numbered_rows 0 10000 ++ [numbered_row 10000]) "msmarco" empty_cluster
      = (Ok tt, es') /\
    received es' = received empty_cluster ++
      [ReqBulk "msmarco" (bulk_body "msmarco" (numbered_rows 0 10000)) true] /\
    sources (bulk_body "msmarco" (numbered_rows 0 10000)) = numbered_rows 0 10000.
Proof.
  split; [vm_compute; reflexivity|].
  apply (index_data_drops_row "msmarco" (numbered_rows 0 10000) (numbered_row 10000) empty_cluster).
  vm_compute; reflexivity.
Defined.

(** ** [create_index] *)

Lemma indices_delete_ignore index es :
  indices_delete index true es =
    (Ok tt, {| indices := delete index (indices es);
               received := received es ++ [ReqDelete index true] |}).
Proof.
  unfold indices_delete, bind, modify, gets, ret, log, set_indices. cbn.
  destruct (indices es !! index) eqn:Hlook; [reflexivity|].
  now rewrite delete_id.
Qed.

(** Deleting a missing index is not an error and changes no index. *)
Lemma indices_delete_missing index es :
  indices es !! index = None ->
  exists es', indices_delete index true es = (Ok tt, es') /\ indices es' = indices es.
Proof.
  intros Hmiss. rewrite indices_delete_ignore. eexists. split; [reflexivity|].
  cbn. now apply delete_id.
Qed.

Lemma create_index_run index_name props es :
  create_index index_name props es =
    (Ok tt, {| indices := <[index_name := EsIndex (Mappings props) []]> (indices es);
               received := received es ++
                 [ReqDelete index_name true; ReqCreate index_name (Mappings props)] |}).
Proof.
  unfold create_index. rewrite (bind_ok _ _ _ _ _ (indices_delete_ignore index_name es)).
  unfold indices_create, bind, modify, gets, raise, log, set_indices. cbn.
  rewrite lookup_delete_eq. cbn. rewrite insert_delete_eq, <- app_assoc. reflexivity.
Qed.

(** C8: [create_index] never fails on an existing or a missing index; it
    leaves under [index_name] one empty index with the supplied mapping and
    touches no other index, and a second call with the same name and
    mapping leaves the indices as the first call left them. *)
Theorem create_index_twice index_name props es :
  exists es1 es2,
    create_index index_name props es = (Ok tt, es1) /\
    create_index index_name props es1 = (Ok tt, es2) /\
    indices es1 = <[index_name := EsIndex (Mappings props) []]> (indices es) /\
    indices es2 !! index_name = Some (EsIndex (Mappings props) []) /\
    indices es2 = indices es1.
Proof.
  eexists _, _. rewrite !create_index_run. cbn.
  repeat split; [apply lookup_insert_eq | apply insert_insert_eq].
Qed.

(** ** Names the notebook never binds *)

Lemma notebook_globals_name i : notebook_globals i !! "name" = None.
Proof. vm_compute. reflexivity. Qed.

Lemma notebook_globals_openapi i : notebook_globals i !! "openapi" = None.
Proof. vm_compute. reflexivity. Qed.

Lemma notebook_globals_text_embeddings_column_name i :
  notebook_globals i !! "text_embeddings_column_name" = None.
Proof. vm_compute. reflexivity. Qed.

(** ** [chat_with_my_data] *)

Section QueryModes.
Variable ChatCompletion_create : chat_request -> result (list string).
Variable globals : gmap string value.
Variables chat_query aoai_deployment_name elasticsearch_endpoint elasticsearch_api_key
  index_name : string.

Let run := chat_with_my_data ChatCompletion_create globals chat_query aoai_deployment_name
             elasticsearch_endpoint elasticsearch_api_key index_name.

(** Whatever the chat service answers, a call that gets past line 228
    sends one request, whose query type is the one line 230 selects. *)
Lemma chat_with_my_data_sends embedding_config ep w :
  embedding_endpoint globals (config_get embedding_config "aoai_embedding_model")
    (config_get embedding_config "aoai_embedding_key") = Ok ep ->
  query_types (snd (run embedding_config w)) =
    query_types w ++
      [select_query_type ep (config_get embedding_config "aoai_embedding_key")
         (config_get embedding_config "elasticsearch_embedding_model")].
Proof.
  intros Hep. unfold run, chat_with_my_data, bind, lift, modify, raise. rewrite Hep.
  set (request := ChatRequest _ _ _).
  destruct (ChatCompletion_create request) as [[|content choices]|e]; cbn;
    rewrite flat_map_app; reflexivity.
Qed.

(** No embedding parameters: lexical mode. *)
Lemma chat_with_my_data_simple w :
  query_types (snd (run ∅ w)) = query_types w ++ ["simple"].
Proof. now rewrite (chat_with_my_data_sends ∅ VNone). Qed.

(** An Elasticsearch embedding model identifier: vector mode. *)
Lemma chat_with_my_data_elasticsearch_model model w :
  model <> "" ->
  query_types (snd (run {["elasticsearch_embedding_model" := VStr model]} w)) =
    query_types w ++ ["vector"].
Proof.
  intros Hmodel. rewrite (chat_with_my_data_sends _ VNone) by reflexivity.
  unfold config_get. rewrite lookup_singleton_eq, lookup_singleton_ne by discriminate.
  unfold select_query_type, py_or, py_and. cbn.
  destruct (String.eqb_spec model ""); [contradiction | reflexivity].
Qed.

(** An Azure OpenAI embedding model or key: line 228 reads [openapi],
    and with that name unbound the call raises before any request. *)
Lemma chat_with_my_data_aoai_unbound embedding_config w :
  globals !! "openapi" = None ->
  truthy (config_get embedding_config "aoai_embedding_model") = true \/
  truthy (config_get embedding_config "aoai_embedding_key") = true ->
  run embedding_config w = (Raise (NameError "openapi"), w).
Proof.
  intros Hunbound Hgiven.
  unfold run, chat_with_my_data, bind, lift, embedding_endpoint, load_global, py_not.
  rewrite Hunbound.
  destruct Hgiven as [-> | ->]; cbn; [reflexivity|].
  now rewrite andb_false_r.
Qed.
End QueryModes.

(** C7 (as the code behaves): with an Azure OpenAI embedding model and key
    supplied, as in the last cell of the notebook, [chat_with_my_data]
    raises [NameError] for [openapi] (a misspelling of [openai]); it sends no
    request and selects no query mode, where the claim says vector mode. *)
Theorem chat_with_my_data_aoai_raises create i chat_query w :
  chat_with_my_data create (notebook_globals i) chat_query
    (in_chat_model_deployment_name i) (in_elasticsearch_endpoint i)
    (in_elasticsearch_api_key i)
    ("msmarco-passagetest2019-unique-" +:+ in_embedding_model_deployment_name i)
    {["aoai_embedding_model" := VStr "text-embedding-ada-002";
      "aoai_embedding_key" := VStr "aoai-key"]} w
  = (Raise (NameError "openapi"), w).
Proof.
  apply chat_with_my_data_aoai_unbound; [apply notebook_globals_openapi|].
  left. vm_compute. reflexivity.
Qed.

(** ** [SampleCsvDatasets.get_dataframe] *)

(** C10 (as the code behaves): the body of [get_dataframe] reads [name]
    where its parameter is [dataset_name]; the constructor's loop variable
    [name] is a local of [__init__] and the notebook binds no module-level
    [name].  On the object that the constructor builds, whose loop ends with
    [name = "msmarco"] and a dataframe stored under it,
    [get_dataframe("msmarco")] returns no dataframe: it raises
    [NameError]. *)
Theorem get_dataframe_raises_name_error :
  exists values df,
    __init__ sample_urlopen sample_read_csv = Ok values /\
    fst <$> last datasets = Some "msmarco" /\
    values !! "msmarco" = Some df /\
    get_dataframe (notebook_globals sample_inputs) values (VStr "msmarco") false
      = Raise (NameError "name") /\
    get_dataframe (notebook_globals sample_inputs) values (VStr "msmarco") false <> Ok df.
Proof.
  eexists _, _. split; [reflexivity|]. split; [reflexivity|].
  split; [apply lookup_insert_eq|].
  assert (Hraise : forall values d,
             get_dataframe (notebook_globals sample_inputs) values d false
             = Raise (NameError "name")).
  { intros values d. unfold get_dataframe, load_global. now rewrite notebook_globals_name. }
  rewrite Hraise. split; [reflexivity | discriminate].
Qed.

(** ** The partitioning step *)

Section ArraySplit.
Context {A : Type}.
Implicit Types (l : list A) (sizes : list nat).

Lemma cumsum_length sizes : forall acc, length (cumsum acc sizes) = length sizes.
Proof. induction sizes as [|n sizes IH]; intros acc; cbn; [reflexivity | now rewrite IH]. Qed.

(** The slices between the running sums are the consecutive blocks. *)
Lemma slices_blocks sizes : forall acc l,
  map (fun i => slice (nth i (acc :: cumsum acc sizes) 0%nat)
                      (nth (S i) (acc :: cumsum acc sizes) 0%nat) l)
      (seq 0 (length sizes))
  = blocks sizes (drop acc l).
Proof.
  induction sizes as [|n sizes IH]; intros acc l; [reflexivity|].
  cbn [length seq map blocks cumsum]. f_equal.
  - unfold slice. cbn [nth]. f_equal. lia.
  - rewrite <- seq_shift, map_map, drop_drop.
    rewrite <- (IH (acc + n)%nat l). apply map_ext. intros i. reflexivity.
Qed.

Lemma concat_blocks sizes : forall l,
  (length l <= sum_list sizes)%nat -> concat (blocks sizes l) = l.
Proof.
  induction sizes as [|n sizes IH]; intros l Hlen; cbn in *.
  - destruct l; [reflexivity | cbn in Hlen; lia].
  - rewrite IH by (rewrite length_drop; lia). apply take_drop.
Qed.

Lemma length_blocks sizes : forall l,
  (sum_list sizes <= length l)%nat -> map length (blocks sizes l) = sizes.
Proof.
  induction sizes as [|n sizes IH]; intros l Hlen; cbn in *; [reflexivity|].
  rewrite IH by (rewrite length_drop; lia). f_equal. rewrite length_take. lia.
Qed.

Lemma sum_list_repeat (n k : nat) : sum_list (repeat n k) = (k * n)%nat.
Proof. induction k as [|k IH]; cbn; [reflexivity | rewrite IH; lia]. Qed.

(** [array_split] with a positive number of sections cuts the list into
    blocks of the balanced sizes. *)
Lemma array_split_blocks l (n : Z) :
  0 < n ->
  array_split l n =
    Ok (blocks (repeat (length l / Z.to_nat n + 1)%nat (length l mod Z.to_nat n) ++
                repeat (length l / Z.to_nat n)%nat (Z.to_nat n - length l mod Z.to_nat n))
               l).
Proof.
  intros Hn. unfold array_split.
  destruct (Z.leb_spec n 0) as [Hle|_]; [lia|].
  f_equal. unfold section_sizes.
  set (sizes := repeat _ _ ++ repeat _ _).
  assert (Hk : length sizes = Z.to_nat n).
  { unfold sizes. rewrite length_app, !repeat_length.
    pose proof (Nat.mod_upper_bound (length l) (Z.to_nat n)). lia. }
  rewrite <- Hk. cbn [cumsum]. rewrite Nat.add_0_r.
  rewrite (slices_blocks sizes 0 l). reflexivity.
Qed.
End ArraySplit.

Lemma ceil_div_bounds (n : Z) :
  16 * ceil_div n maximum_batch_size - 15 <= n <= 16 * ceil_div n maximum_batch_size.
Proof.
  unfold ceil_div, maximum_batch_size.
  pose proof (Z.div_mod (- n) 16 ltac:(lia)).
  pose proof (Z.mod_pos_bound (- n) 16 ltac:(lia)). lia.
Qed.

(** The balanced sizes add up to the length and none exceeds 16 when the
    number of sections is the ceiling of a sixteenth of the length. *)
Lemma balanced_sizes (n k : nat) :
  (1 <= k)%nat -> (n <= 16 * k)%nat ->
  let sizes := repeat (n / k + 1)%nat (n mod k) ++ repeat (n / k)%nat (k - n mod k) in
  sum_list sizes = n /\ Forall (fun size => (size <= 16)%nat) sizes.
Proof.
  intros Hk Hn sizes.
  pose proof (Nat.div_mod_eq n k) as Hdiv.
  pose proof (Nat.mod_upper_bound n k ltac:(lia)) as Hmod.
  split.
  - unfold sizes. rewrite sum_list_with_app, !sum_list_repeat. nia.
  - apply Forall_app. split; apply Forall_forall; intros size Hin.
    + destruct (n mod k)%nat eqn:Hr; [inversion Hin|].
      apply list_elem_of_In, repeat_spec in Hin. subst size. nia.
    + apply list_elem_of_In, repeat_spec in Hin. subst size. nia.
Qed.

(** On an empty table the number of buckets is zero and [array_split]
    refuses it. *)
Lemma partition_dataframe_empty cols :
  partition_dataframe (mkDataFrame cols []) =
    Raise (ValueError "number sections must be larger than 0.").
Proof. reflexivity. Qed.

(** C4, counterexample: a table of 17 rows is cut into a batch of 9 rows
    followed by a batch of 8; the batch that is not the last one has 9
    items, not 16. *)
Lemma partition_dataframe_counterexample :
  exists first last_,
    partition_dataframe (numbered_table 17) = Ok [first; last_] /\
    length (df_rows first) = 9%nat /\
    length (df_rows last_) = 8%nat /\
    df_len first <> maximum_batch_size.
Proof.
  eexists _, _. split; [vm_compute; reflexivity|].
  repeat split. vm_compute. discriminate.
Qed.

(** The partitioning step on a non-empty table: the batches, their
    order, their number and their sizes. *)
Lemma partition_dataframe_spec df :
  df_rows df <> [] ->
  exists partitions,
    partition_dataframe df = Ok partitions /\
    concat (map df_rows partitions) = df_rows df /\
    Z.of_nat (length partitions) = ceil_div (df_len df) maximum_batch_size /\
    Forall (fun p => df_columns p = df_columns df /\
                     0 < df_len p <= maximum_batch_size) partitions /\
    let n := length (df_rows df) in
    let k := length partitions in
    map (fun p => length (df_rows p)) partitions =
      repeat (n / k + 1)%nat (n mod k) ++ repeat (n / k)%nat (k - n mod k).
Proof.
  intros Hrows.
  set (n := length (df_rows df)).
  set (kz := ceil_div (df_len df) maximum_batch_size).
  set (k := Z.to_nat kz).
  assert (Hn : (1 <= n)%nat).
  { unfold n. destruct (df_rows df); [contradiction | cbn; lia]. }
  pose proof (ceil_div_bounds (df_len df)) as Hceil. fold kz in Hceil.
  unfold df_len in Hceil. fold n in Hceil.
  assert (Hk : (1 <= k)%nat) by (unfold k; lia).
  assert (Hnk : (n <= 16 * k)%nat) by (unfold k; lia).
  destruct (balanced_sizes n k Hk Hnk) as [Hsum Hbound].
  set (sizes := repeat (n / k + 1)%nat (n mod k) ++ repeat (n / k)%nat (k - n mod k)) in *.
  assert (Hlen_sizes : length sizes = k).
  { unfold sizes. rewrite length_app, !repeat_length.
    pose proof (Nat.mod_upper_bound n k ltac:(lia)). lia. }
  assert (Hpos : Forall (fun size => (1 <= size)%nat) sizes).
  { pose proof (Nat.div_mod_eq n k). pose proof (Nat.mod_upper_bound n k ltac:(lia)).
    assert (1 <= n / k)%nat by (apply Nat.div_le_lower_bound; nia).
    apply Forall_app. split; apply Forall_forall; intros size Hin;
      apply list_elem_of_In, repeat_spec in Hin; lia. }
  exists (map (mkDataFrame (df_columns df)) (blocks sizes (df_rows df))).
  assert (Hsplit : partition_dataframe df =
                   Ok (map (mkDataFrame (df_columns df)) (blocks sizes (df_rows df)))).
  { unfold partition_dataframe, df_array_split. fold kz.
    rewrite array_split_blocks by lia. reflexivity. }
  assert (Hlens : map length (blocks sizes (df_rows df)) = sizes).
  { apply length_blocks. fold n. lia. }
  assert (Hcount : length (blocks sizes (df_rows df)) = k).
  { apply (f_equal (@length nat)) in Hlens. rewrite length_map in Hlens. lia. }
  split; [exact Hsplit|].
  split; [rewrite map_map; cbn; rewrite map_id; apply concat_blocks; fold n; lia|].
  split; [rewrite length_map, Hcount; unfold k; lia|].
  split.
  - apply Forall_map. cbn. unfold df_len. cbn.
    rewrite <- Hlens in Hbound, Hpos. rewrite Forall_map in Hbound, Hpos.
    rewrite Forall_forall in Hbound, Hpos. apply Forall_forall. intros b Hb.
    specialize (Hbound b Hb). specialize (Hpos b Hb). cbn in *.
    unfold maximum_batch_size. split; [reflexivity | lia].
  - cbn zeta. rewrite length_map, Hcount, map_map. cbn. exact Hlens.
Qed.

(** C4, amended: for every non-empty table the partitioning step succeeds
    with [ceil(len / 16)] batches that keep the columns and, put end to end,
    are the rows in their order; every batch has at least one and at most
    16 rows; the sizes are balanced, [len mod k] batches of
    [len // k + 1] rows followed by batches of [len // k] rows, so batches
    before the last one can be shorter than 16. *)
Theorem partition_dataframe_balanced df :
  df_rows df <> [] ->
  exists partitions,
    partition_dataframe df = Ok partitions /\
    concat (map df_rows partitions) = df_rows df /\
    Z.of_nat (length partitions) = ceil_div (df_len df) maximum_batch_size /\
    Forall (fun p => df_columns p = df_columns df /\
                     0 < df_len p <= maximum_batch_size) partitions /\
    let n := length (df_rows df) in
    let k := length partitions in
    map (fun p => length (df_rows p)) partitions =
      repeat (n / k + 1)%nat (n mod k) ++ repeat (n / k)%nat (k - n mod k).
Proof. apply partition_dataframe_spec. Qed.

Lemma partition_dataframe_balanced_witness :
  df_rows (numbered_table 17) <> [] /\
  exists partitions,
    partition_dataframe (numbered_table 17) = Ok partitions /\
    concat (map df_rows partitions) = df_rows (numbered_table 17) /\
    Z.of_nat (length partitions) = ceil_div (df_len (numbered_table 17)) maximum_batch_size /\
    Forall (fun p => df_columns p = df_columns (numbered_table 17) /\
                     0 < df_len p <= maximum_batch_size) partitions /\
    let n := length (df_rows (numbered_table 17)) in
    let k := length partitions in
    map (fun p => length (df_rows p)) partitions =
      repeat (n / k + 1)%nat (n mod k) ++ repeat (n / k)%nat (k - n mod k).
Proof.
  split; [vm_compute; discriminate|].
  apply (partition_dataframe_balanced (numbered_table 17)). vm_compute. discriminate.
Defined.

(** ** The embedding batcher *)

(** Decide whether the pauses in the goal are throttling pauses. *)
Ltac eval_pauses :=
  repeat match goal with
         | |- context [Qeq_bool ?a ?b] =>
             let v := eval vm_compute in (Qeq_bool a b) in
             change (Qeq_bool a b) with v; cbn
         end.

(** Read the fields of the machine states built in the goal. *)
Ltac simpl_state :=
  cbv beta iota zeta;
  cbn [_values embeddings request_times success requests_made clock_reads trace fst snd].

Section Batcher.
Context {vector : Type}.
Variable provider : nat -> string -> list cell -> result (list vector).
Variable clock : nat -> Q.
Variables embedding_model_deployment_name text_column_name : string.

Let attempt_ := attempt provider clock embedding_model_deployment_name text_column_name.
Let process := process_partition provider clock embedding_model_deployment_name
                 text_column_name.

(** One attempt never raises: a provider error is caught.  It makes one
    request when the text column can be read, and none otherwise; it sets
    [success] and extends [embeddings] exactly when the provider answers. *)
Lemma attempt_spec partition i (s : batcher vector) :
  exists s',
    attempt_ partition i s = (Ok tt, s') /\
    _values s' = _values s /\
    match df_getitem partition text_column_name with
    | Ok input =>
        requests_made s' = S (requests_made s) /\
        match provider (requests_made s) embedding_model_deployment_name input with
        | Ok data =>
            success s' = true /\ embeddings s' = embeddings s ++ data /\
            throttling_pauses s' = S (throttling_pauses s)
        | Raise _ =>
            success s' = success s /\ embeddings s' = embeddings s /\
            throttling_pauses s' = throttling_pauses s
        end
    | Raise _ =>
        requests_made s' = requests_made s /\ success s' = success s /\
        embeddings s' = embeddings s /\ throttling_pauses s' = throttling_pauses s
    end.
Proof.
  unfold attempt_, attempt, try_except, bind, lift, perf_counter, Embedding_create,
    sleep, print, modify, gets, throttling_pauses.
  destruct (df_getitem partition text_column_name) as [input|e]; cbn.
  - destruct (provider (requests_made s) embedding_model_deployment_name input)
      as [data|e]; cbn; eexists; (split; [reflexivity|]); cbn;
      rewrite ?List.filter_app, ?length_app; cbn; eval_pauses; repeat split; lia.
  - eexists. split; [reflexivity|]. cbn. rewrite ?List.filter_app, ?length_app. cbn.
    eval_pauses. repeat split; lia.
Qed.

(** [n] attempts in a row never raise.  With a readable text column they
    make [n] requests, and leave [success] as it was when all of them
    fail; without one they make no request and leave [success] alone. *)
Lemma attempts_spec partition n : forall a (s : batcher vector),
  exists s',
    for_each (seq a n) (attempt_ partition) s = (Ok tt, s') /\
    _values s' = _values s /\
    match df_getitem partition text_column_name with
    | Ok input =>
        requests_made s' = (requests_made s + n)%nat /\
        ((forall i, (i < n)%nat ->
            exists e, provider (requests_made s + i)%nat embedding_model_deployment_name input
                      = Raise e) ->
         success s' = success s)
    | Raise _ => requests_made s' = requests_made s /\ success s' = success s
    end.
Proof.
  induction n as [|n IH]; intros a s.
  - exists s. cbn. split; [reflexivity|]. split; [reflexivity|].
    destruct (df_getitem partition text_column_name); repeat split; lia.
  - cbn [seq for_each].
    destruct (attempt_spec partition a s) as (s1 & Hrun1 & Hval1 & Hstep).
    destruct (IH (S a) s1) as (s2 & Hrun2 & Hval2 & Hrest).
    exists s2. rewrite (bind_ok _ _ _ _ _ Hrun1).
    split; [exact Hrun2|]. split; [congruence|].
    destruct (df_getitem partition text_column_name) as [input|e].
    + destruct Hstep as [Hreq1 Hstep]. destruct Hrest as [Hreq2 Hrest].
      split; [lia|]. intros Hfail.
      destruct (Hfail 0%nat ltac:(lia)) as [e He].
      rewrite Nat.add_0_r in He. rewrite He in Hstep.
      destruct Hstep as (Hsucc & _). rewrite <- Hsucc. apply Hrest.
      intros i Hi. destruct (Hfail (S i) ltac:(lia)) as [e' He'].
      exists e'. rewrite Hreq1. rewrite <- He'. f_equal. lia.
    + destruct Hstep as (Hreq1 & Hsucc1 & _). destruct Hrest as [Hreq2 Hsucc2].
      split; congruence.
Qed.

(** One batch either ends in the fatal error or is followed by the next
    batch after exactly [retry_count] requests; it ends in the fatal error
    when every one of its requests fails. *)
Lemma process_partition_spec partition (s : batcher vector) :
  exists s',
    _values s' = _values s /\
    (process partition s = (Raise unable_to_generate, s') \/
     process partition s = (Ok tt, s') /\
     requests_made s' = (requests_made s + retry_count)%nat) /\
    ((forall i input, (i < retry_count)%nat ->
        df_getitem partition text_column_name = Ok input ->
        exists e, provider (requests_made s + i)%nat embedding_model_deployment_name input
                  = Raise e) ->
     process partition s = (Raise unable_to_generate, s')).
Proof.
  unfold process, process_partition.
  destruct (attempts_spec partition retry_count 0 (set_success _ false s))
    as (s' & Hrun & Hval & Hspec).
  exists s'. split; [exact Hval|].
  assert (Heval : forall k : unit -> M (batcher vector) unit,
             (modify (set_success vector false) ;;
              for_each (seq 0 retry_count)
                (attempt provider clock embedding_model_deployment_name text_column_name
                   partition) ;; k tt) s = k tt s').
  { intros k. unfold bind at 1. cbn [modify]. now rewrite (bind_ok _ _ _ _ _ Hrun). }
  rewrite (Heval (fun _ => let* ok := gets success in
                           if negb ok then raise _ else ret tt)).
  unfold bind, gets, raise, ret.
  destruct (df_getitem partition text_column_name) as [input|e].
  - destruct Hspec as [Hreq Hfail]. cbn in Hreq. split.
    + destruct (success s'); cbn; [right | left]; auto.
    + intros Hall. rewrite Hfail; [reflexivity|].
      intros i Hi. apply (Hall i input Hi eq_refl).
  - destruct Hspec as [_ Hsucc]. cbn in Hsucc. rewrite Hsucc. cbn.
    split; [left|]; reflexivity.
Qed.

(** The loop over the batches ends in the fatal error when the requests
    of some batch all fail. *)
Lemma for_each_partition_fatal partitions : forall k partition (s : batcher vector),
  partitions !! k = Some partition ->
  (forall i input, (i < retry_count)%nat ->
     df_getitem partition text_column_name = Ok input ->
     exists e, provider (requests_made s + retry_count * k + i)%nat
                 embedding_model_deployment_name input = Raise e) ->
  exists s',
    for_each partitions process s = (Raise unable_to_generate, s') /\
    _values s' = _values s.
Proof.
  induction partitions as [|q partitions IH]; intros k partition s Hk Hfail;
    [discriminate|].
  cbn [for_each].
  destruct (process_partition_spec q s) as (s1 & Hval1 & Hcases & Hfatal).
  destruct k as [|k].
  - injection Hk as ->. exists s1. split; [|exact Hval1].
    apply bind_raise, Hfatal. intros i input Hi Hinput.
    destruct (Hfail i input Hi Hinput) as [e He]. exists e. rewrite <- He. f_equal. lia.
  - destruct Hcases as [Hraise | [Hok Hreq]].
    + exists s1. split; [now apply bind_raise | exact Hval1].
    + destruct (IH k partition s1 Hk) as (s2 & Hrun2 & Hval2).
      { intros i input Hi Hinput. destruct (Hfail i input Hi Hinput) as [e He].
        exists e. rewrite <- He. f_equal. lia. }
      exists s2. rewrite (bind_ok _ _ _ _ _ Hok). split; [exact Hrun2 | congruence].
Qed.

(** No batch touches the dataframes of the object. *)
Lemma for_each_partition_values partitions : forall s : batcher vector,
  _values (snd (for_each partitions process s)) = _values s.
Proof.
  induction partitions as [|q partitions IH]; intros s; [reflexivity|].
  cbn [for_each].
  destruct (process_partition_spec q s) as (s1 & Hval1 & [Hraise | [Hok _]] & _).
  - now rewrite (bind_raise _ _ _ _ _ Hraise).
  - rewrite (bind_ok _ _ _ _ _ Hok), IH. exact Hval1.
Qed.

Variable globals : gmap string value.
Variables dataset_name embeddings_column_name model_name : string.

Let run := get_dataframe_with_aoai_embeddings provider clock globals dataset_name
             embedding_model_deployment_name text_column_name embeddings_column_name
             model_name.

(** The call stores nothing: whatever the provider answers and whatever
    the module binds, the dataframes of the object are left as they
    were. *)
Lemma run_values (s : batcher vector) : _values (snd (run s)) = _values s.
Proof.
  unfold run, get_dataframe_with_aoai_embeddings.
  unfold bind at 1. cbn [gets]. unfold bind at 1.
  destruct (lift (dict_getitem (_values s) (VStr dataset_name)) s) as [[df|e] s0] eqn:Hdf;
    unfold lift in Hdf; injection Hdf as _ <-; [|reflexivity].
  unfold bind at 1.
  destruct (lift (df_array_split df (ceil_div (df_len df) maximum_batch_size)) s)
    as [[partitions|e] s0] eqn:Hsplit;
    unfold lift in Hsplit; injection Hsplit as _ <-; [|reflexivity].
  unfold bind at 1. cbn [modify]. unfold bind at 1. cbn [modify].
  unfold bind at 1. cbn [perf_counter]. unfold bind at 1.
  match goal with
  | |- context [for_each partitions ?body ?s0] =>
      pose proof (for_each_partition_values partitions s0) as Hloop;
      change (for_each partitions process s0) with (for_each partitions body s0) in Hloop;
      destruct (for_each partitions body s0) as [[[]|e] s1]
  end; cbn in Hloop; [|exact Hloop].
  unfold bind, lift, gets, print, modify, perf_counter.
  repeat match goal with
         | |- context [match ?x with _ => _ end] => destruct x; cbn
         end; exact Hloop.
Qed.

(** With [text_embeddings_column_name] unbound the call never returns: it
    ends in an exception on every path. *)
Lemma run_raises (s : batcher vector) :
  globals !! "text_embeddings_column_name" = None ->
  exists e, fst (run s) = Raise e.
Proof.
  intros Hunbound.
  unfold run, get_dataframe_with_aoai_embeddings, bind, lift, gets, modify, perf_counter,
    load_global.
  rewrite Hunbound.
  repeat match goal with
         | |- context [match ?x with _ => _ end] => destruct x; cbn
         end; eauto.
Qed.

(** The loop over the batches is reached with the request counter
    untouched, and a fatal error in it is the outcome of the call. *)
Lemma run_fatal (s : batcher vector) df partitions k partition :
  _values s !! dataset_name = Some df ->
  partition_dataframe df = Ok partitions ->
  partitions !! k = Some partition ->
  (forall i input, (i < retry_count)%nat ->
     df_getitem partition text_column_name = Ok input ->
     exists e, provider (requests_made s + retry_count * k + i)%nat
                 embedding_model_deployment_name input = Raise e) ->
  exists s', run s = (Raise unable_to_generate, s') /\ _values s' = _values s.
Proof.
  intros Hdf Hsplit Hk Hfail.
  unfold run, get_dataframe_with_aoai_embeddings.
  unfold bind at 1. cbn [gets]. unfold bind at 1. unfold lift at 1.
  cbn [dict_getitem]. rewrite Hdf.
  unfold bind at 1. unfold lift at 1.
  unfold partition_dataframe in Hsplit. rewrite Hsplit.
  unfold bind at 1. cbn [modify]. unfold bind at 1. cbn [modify].
  unfold bind at 1. cbn [perf_counter]. unfold bind at 1.
  match goal with
  | |- context [for_each partitions ?body ?s0] =>
      destruct (for_each_partition_fatal partitions k partition s0 Hk Hfail)
        as (s' & Hrun & Hval)
  end.
  fold process. rewrite Hrun. exists s'. split; [reflexivity | exact Hval].
Qed.
End Batcher.

(** C2: when every one of the 20 requests for some batch fails, the call
    ends in the exception "Unable to generate embeddings ...": the caller
    gets no value, and no dataframe of the object has been changed, so no
    row carries an embedding. *)
Theorem fatal_when_retries_exhausted {vector : Type}
    (provider : nat -> string -> list cell -> result (list vector)) (clock : nat -> Q)
    (globals : gmap string value)
    (dataset_name embedding_model_deployment_name text_column_name embeddings_column_name
       model_name : string)
    (s : batcher vector) df partitions k partition :
  _values s !! dataset_name = Some df ->
  partition_dataframe df = Ok partitions ->
  partitions !! k = Some partition ->
  (forall i input, (i < retry_count)%nat ->
     df_getitem partition text_column_name = Ok input ->
     exists e, provider (requests_made s + retry_count * k + i)%nat
                 embedding_model_deployment_name input = Raise e) ->
  exists s',
    get_dataframe_with_aoai_embeddings provider clock globals dataset_name
      embedding_model_deployment_name text_column_name embeddings_column_name model_name s
    = (Raise (Exception
         "Unable to generate embeddings (see previous error output for more information.)"),
       s') /\
    _values s' = _values s.
Proof. intros Hdf Hsplit Hk Hfail. eapply run_fatal; eassumption. Qed.

Lemma fatal_when_retries_exhausted_witness :
  partition_dataframe (numbered_table 17) = Ok seventeen_batches /\
  exists s',
    notebook_call flaky_provider (numbered_table 17)
    = (Raise (Exception
         "Unable to generate embeddings (see previous error output for more information.)"),
       s') /\
    _values s' = _values (@fresh string {["msmarco" := numbered_table 17]}).
Proof.
  split; [vm_compute; reflexivity|]. unfold notebook_call.
  apply (fatal_when_retries_exhausted flaky_provider sample_clock
           (notebook_globals sample_inputs) "msmarco"
           (in_embedding_model_deployment_name sample_inputs) "text"
           "text_embedding.aoai_predicted_value" "text-embedding-ada-002"
           (fresh {["msmarco" := numbered_table 17]}) (numbered_table 17)
           seventeen_batches 1
           (mkDataFrame ["id"; "text"] (map numbered_text (seq 9 8)))).
  - vm_compute. reflexivity.
  - vm_compute. reflexivity.
  - reflexivity.
  - intros i input Hi _. exists (APIError "429 Too Many Requests").
    unfold flaky_provider. destruct (Nat.ltb_spec (requests_made (@fresh string {["msmarco" := numbered_table 17]}) + retry_count * 1 + i) 20) as [Hlt|_];
      [cbn in Hlt; lia | reflexivity].
Defined.

(** *** A provider that answers every request *)

Lemma length_concat_repeat {A} (l : list A) (n : nat) :
  length (concat (repeat l n)) = (n * length l)%nat.
Proof. induction n as [|n IH]; cbn; [reflexivity | rewrite length_app, IH; lia]. Qed.

Section AnsweringProvider.
Context {vector : Type}.
Variable f : cell -> vector.
Variable provider : nat -> string -> list cell -> result (list vector).
Variable clock : nat -> Q.
Variables embedding_model_deployment_name text_column_name : string.

(** Every request is answered, with the vector [f c] for each input [c]. *)
Hypothesis answers : forall n input,
  provider n embedding_model_deployment_name input = Ok (map f input).

Let attempt_ := attempt provider clock embedding_model_deployment_name text_column_name.
Let process := process_partition provider clock embedding_model_deployment_name
                 text_column_name.

(** What one batch adds to [embeddings]: its vectors, once per attempt. *)
Let added (j : nat) (partition : DataFrame) : list vector :=
  concat (repeat (map f (column_cells j partition)) retry_count).

(** The loop never stops early: [n] attempts add the vectors of the batch
    [n] times over and pause [n] times. *)
Lemma attempts_answered partition input n : forall a (s : batcher vector),
  df_getitem partition text_column_name = Ok input ->
  exists s',
    for_each (seq a n) (attempt_ partition) s = (Ok tt, s') /\
    embeddings s' = embeddings s ++ concat (repeat (map f input) n) /\
    throttling_pauses s' = (throttling_pauses s + n)%nat /\
    requests_made s' = (requests_made s + n)%nat /\
    ((0 < n)%nat -> success s' = true).
Proof.
  induction n as [|n IH]; intros a s Hinput.
  - exists s. cbn. rewrite app_nil_r. repeat split; lia.
  - cbn [seq for_each].
    destruct (attempt_spec provider clock embedding_model_deployment_name text_column_name
                partition a s) as (s1 & Hrun1 & _ & Hstep).
    rewrite Hinput, answers in Hstep. destruct Hstep as (Hreq1 & Hsucc1 & Hemb1 & Hpause1).
    destruct (IH (S a) s1 Hinput) as (s2 & Hrun2 & Hemb2 & Hpause2 & Hreq2 & Hsucc2).
    exists s2. fold attempt_ in Hrun1. rewrite (bind_ok _ _ _ _ _ Hrun1).
    split; [exact Hrun2|]. split; [|split; [lia | split; [lia|]]].
    + rewrite Hemb2, Hemb1. cbn [repeat concat]. now rewrite <- app_assoc.
    + intros _. destruct n as [|n]; [|apply Hsucc2; lia].
      cbn in Hrun2. injection Hrun2 as <-. exact Hsucc1.
Qed.

(** A batch is followed by the next one after [retry_count] requests,
    [retry_count] pauses and [retry_count] copies of its vectors. *)
Lemma process_partition_answered j partition (s : batcher vector) :
  column_index text_column_name (df_columns partition) = Some j ->
  exists s',
    process partition s = (Ok tt, s') /\
    embeddings s' = embeddings s ++ added j partition /\
    throttling_pauses s' = (throttling_pauses s + retry_count)%nat /\
    requests_made s' = (requests_made s + retry_count)%nat.
Proof.
  intros Hcol.
  assert (Hinput : df_getitem partition text_column_name = Ok (column_cells j partition))
    by (unfold df_getitem; now rewrite Hcol).
  destruct (attempts_answered partition _ retry_count 0 (set_success _ false s) Hinput)
    as (s' & Hrun & Hemb & Hpause & Hreq & Hsucc).
  exists s'. unfold process, process_partition.
  unfold bind at 1. cbn [modify]. fold attempt_. rewrite (bind_ok _ _ _ _ _ Hrun).
  unfold bind, gets. rewrite Hsucc by (unfold retry_count; lia). cbn.
  repeat split; assumption.
Qed.

Lemma for_each_partition_answered j partitions : forall s : batcher vector,
  Forall (fun p => column_index text_column_name (df_columns p) = Some j) partitions ->
  exists s',
    for_each partitions process s = (Ok tt, s') /\
    embeddings s' = embeddings s ++ flat_map (added j) partitions /\
    throttling_pauses s' = (throttling_pauses s + retry_count * length partitions)%nat /\
    requests_made s' = (requests_made s + retry_count * length partitions)%nat.
Proof.
  induction partitions as [|p partitions IH]; intros s Hcols.
  - exists s. cbn. rewrite app_nil_r. repeat split; lia.
  - inversion Hcols as [|? ? Hp Hrest]; subst.
    destruct (process_partition_answered j p s Hp) as (s1 & Hrun1 & Hemb1 & Hpause1 & Hreq1).
    destruct (IH s1 Hrest) as (s2 & Hrun2 & Hemb2 & Hpause2 & Hreq2).
    exists s2. cbn [for_each]. rewrite (bind_ok _ _ _ _ _ Hrun1).
    split; [exact Hrun2|]. cbn [flat_map length].
    rewrite Hemb2, Hemb1, <- app_assoc. repeat split; lia.
Qed.

Variable globals : gmap string value.
Variables dataset_name embeddings_column_name model_name : string.

(** The whole call on a table whose text column can be read: what
    [embeddings] holds and how often the call has paused when it ends. *)
Lemma run_answered (s : batcher vector) df partitions j :
  _values s !! dataset_name = Some df ->
  partition_dataframe df = Ok partitions ->
  column_index text_column_name (df_columns df) = Some j ->
  Forall (fun p => df_columns p = df_columns df) partitions ->
  exists r s',
    get_dataframe_with_aoai_embeddings provider clock globals dataset_name
      embedding_model_deployment_name text_column_name embeddings_column_name
      model_name s = (r, s') /\
    embeddings s' = flat_map (added j) partitions /\
    throttling_pauses s' = (throttling_pauses s + retry_count * length partitions)%nat /\
    requests_made s' = (requests_made s + retry_count * length partitions)%nat.
Proof.
  intros Hdf Hsplit Hcol Hcols.
  unfold get_dataframe_with_aoai_embeddings.
  unfold bind at 1. cbn [gets]. unfold bind at 1. unfold lift at 1.
  cbn [dict_getitem]. rewrite Hdf.
  unfold bind at 1. unfold lift at 1.
  unfold partition_dataframe in Hsplit. rewrite Hsplit.
  unfold bind at 1. cbn [modify]. unfold bind at 1. cbn [modify].
  unfold bind at 1. cbn [perf_counter]. unfold bind at 1.
  match goal with
  | |- context [for_each partitions ?body ?s0] =>
      destruct (for_each_partition_answered j partitions s0)
        as (s1 & Hrun & Hemb & Hpause & Hreq)
  end.
  { eapply Forall_impl; [exact Hcols|]. cbn. intros p ->. exact Hcol. }
  fold process. rewrite Hrun.
  cbn [embeddings set_embeddings set_request_times app] in Hemb.
  unfold throttling_pauses in *.
  cbn [trace requests_made set_embeddings set_request_times] in Hpause, Hreq.
  unfold bind, lift, gets, print, modify, perf_counter, emit.
  destruct (load_global globals "text_embeddings_column_name") as [column|e];
    simpl_state; [|eexists _, _; split; [reflexivity|]; simpl_state; auto].
  destruct (compare_column vector df column (embeddings s1)) as [[]|e];
    simpl_state; [|eexists _, _; split; [reflexivity|]; simpl_state; auto].
  destruct (last partitions) as [partition|];
    simpl_state; [|eexists _, _; split; [reflexivity|]; simpl_state; auto].
  destruct (mean (request_times s1)) as [average|e];
    simpl_state; [|eexists _, _; split; [reflexivity|]; simpl_state; auto].
  eexists _, _. split; [reflexivity|]. simpl_state.
  rewrite !List.filter_app, !length_app. cbn [List.filter is_throttling_pause length].
  repeat split; try assumption. lia.
Qed.
End AnsweringProvider.

(** C1 (as the code behaves): the retry loop has no [break], so every
    attempt that succeeds extends [embeddings].  On a non-empty table whose
    text column can be read, with a provider that answers every request,
    [embeddings] ends up with the vectors of each batch [retry_count = 20]
    times over, batch after batch: twenty vectors per input text, not
    one. *)
Theorem embeddings_extended_by_every_attempt {vector : Type} (f : cell -> vector)
    (provider : nat -> string -> list cell -> result (list vector)) (clock : nat -> Q)
    (globals : gmap string value)
    (dataset_name embedding_model_deployment_name text_column_name embeddings_column_name
       model_name : string)
    (s : batcher vector) df j :
  _values s !! dataset_name = Some df ->
  df_rows df <> [] ->
  column_index text_column_name (df_columns df) = Some j ->
  (forall n input, provider n embedding_model_deployment_name input = Ok (map f input)) ->
  exists partitions,
    partition_dataframe df = Ok partitions /\
    let s' := snd (get_dataframe_with_aoai_embeddings provider clock globals dataset_name
                     embedding_model_deployment_name text_column_name embeddings_column_name
                     model_name s) in
    embeddings s' =
      flat_map (fun p => concat (repeat (map f (column_cells j p)) retry_count)) partitions /\
    length (embeddings s') = (retry_count * length (df_rows df))%nat.
Proof.
  intros Hdf Hrows Hcol Hanswers.
  destruct (partition_dataframe_spec df Hrows)
    as (partitions & Hsplit & Hconcat & _ & Hall & _).
  assert (Hcols : Forall (fun p => df_columns p = df_columns df) partitions).
  { eapply Forall_impl; [exact Hall|]. cbn. intros p [Hp _]. exact Hp. }
  exists partitions. split; [exact Hsplit|].
  destruct (run_answered f provider clock embedding_model_deployment_name text_column_name
              Hanswers globals dataset_name embeddings_column_name model_name
              s df partitions j Hdf Hsplit Hcol Hcols) as (r & s' & Hrun & Hemb & _).
  rewrite Hrun. cbn [snd]. split; [exact Hemb|]. rewrite Hemb, <- Hconcat.
  clear. induction partitions as [|p partitions IH];
    cbn [flat_map map concat length]; [lia|].
  rewrite !length_app, IH, length_concat_repeat. unfold column_cells.
  rewrite !length_map. unfold retry_count. lia.
Qed.

Lemma embeddings_extended_by_every_attempt_witness :
  df_rows two_rows <> [] /\
  exists partitions,
    partition_dataframe two_rows = Ok partitions /\
    let s' := snd (notebook_call echo_provider two_rows) in
    embeddings s' =
      flat_map (fun p => concat (repeat (map embed (column_cells 1 p)) retry_count))
        partitions /\
    length (embeddings s') = (retry_count * length (df_rows two_rows))%nat.
Proof.
  split; [vm_compute; discriminate|]. unfold notebook_call.
  apply (embeddings_extended_by_every_attempt embed echo_provider sample_clock
           (notebook_globals sample_inputs) "msmarco"
           (in_embedding_model_deployment_name sample_inputs) "text"
           "text_embedding.aoai_predicted_value" "text-embedding-ada-002"
           (fresh {["msmarco" := two_rows]}) two_rows 1).
  - vm_compute. reflexivity.
  - vm_compute. discriminate.
  - vm_compute. reflexivity.
  - intros n input. reflexivity.
Defined.

(** On two texts: 40 vectors, and the one at position 2 belongs to the
    first text. *)
Example notebook_call_embeddings :
  let s := snd (notebook_call echo_provider two_rows) in
  df_len two_rows = 2 /\
  embeddings s = concat (repeat [embed (CStr "a"); embed (CStr "b")] retry_count) /\
  length (embeddings s) = 40%nat /\
  embeddings s !! 2%nat = Some (embed (CStr "a")).
Proof. vm_compute. repeat split. Qed.

(** C3 (as the code behaves): the throttling pause is inside the retry
    loop, which goes on after a success.  On a non-empty table whose text
    column can be read, with a provider that answers every request, the
    call sends [retry_count = 20] requests per batch and pauses for
    [throttling_interval] after each of them: twenty pauses per batch, not
    one. *)
Theorem throttling_pause_after_every_attempt {vector : Type} (f : cell -> vector)
    (provider : nat -> string -> list cell -> result (list vector)) (clock : nat -> Q)
    (globals : gmap string value)
    (dataset_name embedding_model_deployment_name text_column_name embeddings_column_name
       model_name : string)
    (s : batcher vector) df j :
  _values s !! dataset_name = Some df ->
  df_rows df <> [] ->
  column_index text_column_name (df_columns df) = Some j ->
  (forall n input, provider n embedding_model_deployment_name input = Ok (map f input)) ->
  exists partitions,
    partition_dataframe df = Ok partitions /\
    let s' := snd (get_dataframe_with_aoai_embeddings provider clock globals dataset_name
                     embedding_model_deployment_name text_column_name embeddings_column_name
                     model_name s) in
    throttling_pauses s' = (throttling_pauses s + retry_count * length partitions)%nat /\
    requests_made s' = (requests_made s + retry_count * length partitions)%nat.
Proof.
  intros Hdf Hrows Hcol Hanswers.
  destruct (partition_dataframe_spec df Hrows)
    as (partitions & Hsplit & _ & _ & Hall & _).
  assert (Hcols : Forall (fun p => df_columns p = df_columns df) partitions).
  { eapply Forall_impl; [exact Hall|]. cbn. intros p [Hp _]. exact Hp. }
  exists partitions. split; [exact Hsplit|].
  destruct (run_answered f provider clock embedding_model_deployment_name text_column_name
              Hanswers globals dataset_name embeddings_column_name model_name
              s df partitions j Hdf Hsplit Hcol Hcols) as (r & s' & Hrun & _ & Hpause & Hreq).
  rewrite Hrun. cbn [snd]. split; assumption.
Qed.

Lemma throttling_pause_after_every_attempt_witness :
  df_rows two_rows <> [] /\
  exists partitions,
    partition_dataframe two_rows = Ok partitions /\
    let s' := snd (notebook_call echo_provider two_rows) in
    throttling_pauses s' =
      (throttling_pauses (@fresh string {["msmarco" := two_rows]}) +
       retry_count * length partitions)%nat /\
    requests_made s' =
      (requests_made (@fresh string {["msmarco" := two_rows]}) +
       retry_count * length partitions)%nat.
Proof.
  split; [vm_compute; discriminate|]. unfold notebook_call.
  apply (throttling_pause_after_every_attempt embed echo_provider sample_clock
           (notebook_globals sample_inputs) "msmarco"
           (in_embedding_model_deployment_name sample_inputs) "text"
           "text_embedding.aoai_predicted_value" "text-embedding-ada-002"
           (fresh {["msmarco" := two_rows]}) two_rows 1).
  - vm_compute. reflexivity.
  - vm_compute. discriminate.
  - vm_compute. reflexivity.
  - intros n input. reflexivity.
Defined.

(** On two texts, which make one batch: 20 requests and 20 pauses. *)
Example notebook_call_pauses :
  let s := snd (notebook_call echo_provider two_rows) in
  partition_dataframe two_rows = Ok [two_rows] /\
  requests_made s = 20%nat /\
  throttling_pauses s = 20%nat.
Proof. vm_compute. repeat split. Qed.

(** The run of the notebook's call on a provider that answers every
    request: the loops complete and line 167 raises. *)
Example notebook_call_name_error :
  exists s',
    notebook_call echo_provider two_rows
    = (Raise (NameError "text_embeddings_column_name"), s') /\
    _values s' = {["msmarco" := two_rows]} /\
    df_columns two_rows = ["id"; "text"].
Proof. eexists. split; [vm_compute; reflexivity|]. split; reflexivity. Qed.

(** C9 (as the code behaves): line 167 compares ([==]) where it should
    assign, and names [text_embeddings_column_name] where the parameter is
    [embeddings_column_name].  Whatever the provider answers and whatever
    the module binds, the dataframes of the object are left as they were,
    without an embeddings column; and in the notebook, which binds no
    [text_embeddings_column_name], the call never completes: it ends in an
    exception on every path. *)
Theorem embeddings_never_stored {vector : Type}
    (provider : nat -> string -> list cell -> result (list vector)) (clock : nat -> Q)
    (globals : gmap string value) (i : inputs)
    (dataset_name embedding_model_deployment_name text_column_name embeddings_column_name
       model_name : string)
    (s : batcher vector) :
  _values (snd (get_dataframe_with_aoai_embeddings provider clock globals dataset_name
                  embedding_model_deployment_name text_column_name embeddings_column_name
                  model_name s)) = _values s /\
  exists e,
    fst (get_dataframe_with_aoai_embeddings provider clock (notebook_globals i) dataset_name
           embedding_model_deployment_name text_column_name embeddings_column_name
           model_name s) = Raise e.
Proof.
  split; [apply run_values|].
  apply run_raises, notebook_globals_text_embeddings_column_name.
Qed.

(** * Further properties *)

(** ** [index_data]: what is submitted *)

Section IndexDataSubmitted.
Variable index_name : string.

Let step := index_data_step index_name.
Let init := {| operations_chunks := []; chunk := []; chunk_size := 0 |}.

Lemma sources_app ops1 ops2 : sources (ops1 ++ ops2) = sources ops1 ++ sources ops2.
Proof. apply flat_map_app. Qed.

Lemma chunk_rows_body rows : chunk_rows (bulk_body index_name rows) = Z.of_nat (length rows).
Proof. unfold chunk_rows. now rewrite sources_bulk_body. Qed.

Lemma counting_inv_fold rows :
  counting_inv (Z.of_nat (length rows)) (fold_left step rows init).
Proof.
  induction rows as [|row rows IH] using rev_ind.
  - repeat split.
  - rewrite fold_left_app, length_app. cbn [fold_left length].
    set (st := fold_left step rows init) in *.
    set (m := Z.of_nat (length rows)) in *.
    replace (Z.of_nat (length rows + 1)) with (m + 1) by lia.
    destruct IH as (Hclosed & Hsize & Hopen).
    assert (Hm : 0 <= m) by lia.
    unfold counting_inv, max_operations_chunk_size in *. change (10000 + 1) with 10001 in *.
    pose proof (Z.div_mod m 10001 ltac:(lia)) as Hdiv.
    pose proof (Z.mod_pos_bound m 10001 ltac:(lia)) as Hmod.
    assert (Hq : 0 <= m / 10001) by (apply Z.div_pos; lia).
    unfold step, index_data_step, max_operations_chunk_size.
    destruct (Z.ltb_spec (chunk_size st) 10000) as [Hroom|Hfull].
    + assert (Hq' : (m + 1) / 10001 = m / 10001)
        by (symmetry; apply (Z.div_unique (m + 1) 10001 (m / 10001) (m mod 10001 + 1)); lia).
      assert (Hr' : (m + 1) mod 10001 = m mod 10001 + 1)
        by (symmetry; apply (Z.mod_unique (m + 1) 10001 (m / 10001) (m mod 10001 + 1)); lia).
      repeat split; cbn [operations_chunks chunk chunk_size].
      * now rewrite Hq'.
      * lia.
      * unfold chunk_rows in *. rewrite sources_app, length_app. cbn. lia.
    + assert (Hq' : (m + 1) / 10001 = m / 10001 + 1)
        by (symmetry; apply (Z.div_unique (m + 1) 10001 (m / 10001 + 1) 0); lia).
      assert (Hr' : (m + 1) mod 10001 = 0)
        by (symmetry; apply (Z.mod_unique (m + 1) 10001 (m / 10001 + 1) 0); lia).
      repeat split; cbn [operations_chunks chunk chunk_size]; try (rewrite Hr'; reflexivity).
      rewrite map_app, Hclosed, Hq'. cbn [map].
      replace (Z.to_nat (m / 10001 + 1)) with (S (Z.to_nat (m / 10001))) by lia.
      cbn [repeat]. rewrite repeat_cons. f_equal. f_equal. lia.
Qed.

Lemma sum_Z_app l1 l2 : sum_Z (l1 ++ l2) = sum_Z l1 + sum_Z l2.
Proof. unfold sum_Z. induction l1 as [|x l1 IH]; cbn; [reflexivity | rewrite IH; lia]. Qed.

Lemma sum_Z_repeat (x : Z) (n : nat) : sum_Z (repeat x n) = Z.of_nat n * x.
Proof. unfold sum_Z. induction n as [|n IH]; cbn [repeat fold_right]; [lia | rewrite IH; lia]. Qed.

Lemma length_concat_sources chunks :
  Z.of_nat (length (concat (map sources chunks))) = sum_Z (map chunk_rows chunks).
Proof.
  unfold sum_Z. induction chunks as [|c chunks IH]; cbn [map concat fold_right]; [reflexivity|].
  rewrite length_app, <- IH. unfold chunk_rows. lia.
Qed.

(** The sizes of the chunks that [index_data] submits. *)
Lemma index_data_chunks_sizes rows :
  let n := Z.of_nat (length rows) in
  map chunk_rows (index_data_chunks rows index_name) =
    repeat max_operations_chunk_size (Z.to_nat (n / (max_operations_chunk_size + 1))) ++
    (if n mod (max_operations_chunk_size + 1) =? 0 then []
     else [n mod (max_operations_chunk_size + 1)]).
Proof.
  intros n. unfold index_data_chunks. fold init. fold step.
  destruct (counting_inv_fold rows) as (Hclosed & Hsize & Hopen). fold n in Hclosed, Hsize, Hopen.
  assert (Hinv : chunking_inv index_name (fold_left step rows init)).
  { apply chunking_inv_fold. repeat split; cbn;
      [exists []; now cbn | unfold max_operations_chunk_size; lia | constructor]. }
  destruct Hinv as ((rs & Hchunk & Hlen) & _ & _).
  set (st := fold_left step rows init) in *.
  assert (Hrs : chunk_rows (chunk st) = Z.of_nat (length rs))
    by (rewrite Hchunk; apply chunk_rows_body).
  assert (Hlen2 : length (chunk st) = (2 * length rs)%nat)
    by (rewrite Hchunk; apply length_bulk_body).
  rewrite Hlen2.
  destruct (Nat.ltb_spec 0 (2 * length rs)) as [Hsome|Hnone].
  - rewrite map_app, Hclosed. cbn [map]. rewrite Hopen.
    destruct (Z.eqb_spec (n mod (max_operations_chunk_size + 1)) 0) as [Hzero|_];
      [lia | reflexivity].
  - rewrite Hclosed.
    destruct (Z.eqb_spec (n mod (max_operations_chunk_size + 1)) 0) as [_|Hpos];
      [now rewrite app_nil_r | lia].
Qed.

(** The rows in hand are a sublist of the rows read. *)
Lemma submitted_sublist_fold rows :
  concat (map sources (operations_chunks (fold_left step rows init))) ++
    sources (chunk (fold_left step rows init))
  `sublist_of` rows.
Proof.
  induction rows as [|row rows IH] using rev_ind; [constructor|].
  rewrite fold_left_app. cbn [fold_left].
  set (st := fold_left step rows init) in *.
  unfold step, index_data_step.
  destruct (chunk_size st <? max_operations_chunk_size);
    cbn [operations_chunks chunk chunk_size].
  - rewrite sources_app, app_assoc. apply sublist_app; [exact IH|]. cbn. reflexivity.
  - rewrite map_app, concat_app. cbn [map concat sources flat_map].
    rewrite !app_nil_r. now apply sublist_inserts_r.
Qed.

Lemma submitted_rows_fold rows :
  submitted_rows rows index_name =
    concat (map sources (operations_chunks (fold_left step rows init))) ++
    sources (chunk (fold_left step rows init)).
Proof.
  unfold submitted_rows, index_data_chunks. fold init. fold step.
  set (st := fold_left step rows init).
  destruct (chunk st) as [|op ops] eqn:Hchunk; cbn [length Nat.ltb Nat.leb].
  - cbn. now rewrite app_nil_r.
  - rewrite map_app, concat_app. cbn [map concat]. now rewrite app_nil_r.
Qed.

End IndexDataSubmitted.

Lemma index_data_chunks_small index_name rows :
  Z.of_nat (length rows) <= max_operations_chunk_size ->
  index_data_chunks rows index_name =
    match rows with
    | [] => []
    | _ :: _ => [bulk_body index_name rows]
    end.
Proof.
  intros Hsmall. unfold index_data_chunks.
  rewrite index_data_fill by (cbn [chunk_size]; lia).
  cbn [operations_chunks chunk app]. rewrite length_bulk_body.
  destruct rows as [|row rows]; [reflexivity|].
  destruct (Nat.ltb_spec 0 (2 * length (row :: rows))) as [_|Hzero];
    [reflexivity | cbn [length] in Hzero; lia].
Qed.

Lemma recording_bulk_all_accepted outcome index_name chunks : forall received,
  (forall i, (i < length chunks)%nat -> outcome (length received + i)%nat = Ok tt) ->
  for_each chunks (fun c => recording_bulk outcome index_name c true) received =
    (Ok tt, received ++ map (fun c => ReqBulk index_name c true) chunks).
Proof.
  induction chunks as [|c chunks IH]; intros received Haccepted.
  - cbn. now rewrite app_nil_r.
  - cbn [for_each map]. unfold bind at 1. unfold recording_bulk at 1.
    rewrite <- (Nat.add_0_r (length received)), Haccepted by (cbn; lia).
    rewrite IH, <- app_assoc; [reflexivity|].
    intros i Hi. rewrite length_app. cbn [length].
    replace (length received + 1 + i)%nat with (length received + S i)%nat by lia.
    apply Haccepted. cbn. lia.
Qed.

Lemma recording_bulk_first_refusal outcome index_name chunks : forall received k e,
  (k < length chunks)%nat ->
  (forall i, (i < k)%nat -> outcome (length received + i)%nat = Ok tt) ->
  outcome (length received + k)%nat = Raise e ->
  for_each chunks (fun c => recording_bulk outcome index_name c true) received =
    (Raise e, received ++ take (S k) (map (fun c => ReqBulk index_name c true) chunks)).
Proof.
  induction chunks as [|c chunks IH]; intros received k e Hk Hbefore Hrefused;
    [cbn in Hk; lia|].
  cbn [for_each map]. unfold bind at 1. unfold recording_bulk at 1.
  destruct k as [|k].
  - rewrite Nat.add_0_r in Hrefused. rewrite Hrefused. reflexivity.
  - rewrite <- (Nat.add_0_r (length received)), Hbefore by lia.
    rewrite (IH _ k e).
    + cbn [take]. now rewrite <- app_assoc.
    + cbn in Hk. lia.
    + intros i Hi. rewrite length_app. cbn [length].
      replace (length received + 1 + i)%nat with (length received + S i)%nat by lia.
      apply Hbefore. lia.
    + rewrite length_app. cbn [length].
      replace (length received + 1 + k)%nat with (length received + S k)%nat by lia.
      exact Hrefused.
Qed.

(** X1: whatever the client does with a bulk request, [index_data] sends
    its chunks in order, one bulk request per chunk, each for [index_name]
    and with [refresh=True], and does not retry: when the client raises on a
    request, that exception reaches the caller and no later chunk is sent;
    when it accepts them all, every chunk has been sent.  Every chunk is a
    sequence of [index] action lines for [index_name] each followed by its
    row, for at most 10000 rows. *)
Theorem index_data_stops_at_first_failure (outcome : nat -> result unit) rows index_name
    (received : list request) :
  let requests :=
    map (fun c => ReqBulk index_name c true) (index_data_chunks rows index_name) in
  index_data_on bulk rows index_name = index_data rows index_name /\
  Forall (bounded_body index_name) (index_data_chunks rows index_name) /\
  ((forall i, (i < length requests)%nat -> outcome (length received + i)%nat = Ok tt) ->
   index_data_on (recording_bulk outcome) rows index_name received
   = (Ok tt, received ++ requests)) /\
  (forall k e,
     (k < length requests)%nat ->
     (forall i, (i < k)%nat -> outcome (length received + i)%nat = Ok tt) ->
     outcome (length received + k)%nat = Raise e ->
     index_data_on (recording_bulk outcome) rows index_name received
     = (Raise e, received ++ take (S k) requests)).
Proof.
  intros requests. split; [reflexivity|].
  split; [apply index_data_chunks_bounded|]. unfold index_data_on, requests. split.
  - intros Haccepted. apply recording_bulk_all_accepted.
    intros i Hi. apply Haccepted. now rewrite length_map.
  - intros k e Hk Hbefore Hrefused. apply recording_bulk_first_refusal; try assumption.
    now rewrite length_map in Hk.
Qed.

(** On 25000 rows with a server that refuses the second request: two
    requests are sent, the third chunk is not. *)
Example index_data_second_request_refused :
  let refuse_second (n : nat) : result unit :=
    if (n =? 1)%nat then Raise (APIError "429 Too Many Requests") else Ok tt in
  let '(r, received) :=
    index_data_on (recording_bulk refuse_second) (numbered_rows 0 25000) "msmarco" [] in
  r = Raise (APIError "429 Too Many Requests") /\ length received = 2%nat.
Proof. vm_compute. split; reflexivity. Qed.

(** X2: on at most 10000 rows [index_data] loses nothing: an empty input
    sends no request at all, and a non-empty one sends a single bulk request
    that carries every row, in order. *)
Theorem index_data_small_input rows index_name es :
  Z.of_nat (length rows) <= max_operations_chunk_size ->
  exists es',
    index_data rows index_name es = (Ok tt, es') /\
    received es' =
      received es ++
      match rows with
      | [] => []
      | _ :: _ => [ReqBulk index_name (bulk_body index_name rows) true]
      end /\
    submitted_rows rows index_name = rows.
Proof.
  intros Hsmall.
  destruct (index_data_requests rows index_name es) as (es' & rowss & Hrun & Hchunks & Hlog & _).
  pose proof (index_data_chunks_small index_name rows Hsmall) as Hone.
  exists es'. split; [exact Hrun|]. split.
  - rewrite Hlog, <- (map_map (bulk_body index_name) (fun c => ReqBulk index_name c true)),
      <- Hchunks, Hone.
    now destruct rows.
  - unfold submitted_rows. rewrite Hone. destruct rows as [|row rows]; [reflexivity|].
    cbn [map concat]. now rewrite app_nil_r, sources_bulk_body.
Qed.

Lemma index_data_small_input_witness :
  Z.of_nat (length few_rows) <= max_operations_chunk_size /\
  exists es',
    index_data few_rows "msmarco" empty_cluster = (Ok tt, es') /\
    received es' =
      received empty_cluster ++
      match few_rows with
      | [] => []
      | _ :: _ => [ReqBulk "msmarco" (bulk_body "msmarco" few_rows) true]
      end /\
    submitted_rows few_rows "msmarco" = few_rows.
Proof.
  split; [vm_compute; discriminate|].
  apply (index_data_small_input few_rows "msmarco" empty_cluster).
  vm_compute. discriminate.
Defined.

(** X3: how many rows each bulk request carries, for every input: with [n]
    rows, [n // 10001] requests of exactly 10000 rows, followed by one
    request of [n mod 10001] rows when that is not zero.  One row in every
    10001 is in no request: [n - n // 10001] rows are submitted in all. *)
Theorem index_data_request_sizes rows index_name :
  let n := Z.of_nat (length rows) in
  map chunk_rows (index_data_chunks rows index_name) =
    repeat max_operations_chunk_size (Z.to_nat (n / (max_operations_chunk_size + 1))) ++
    (if n mod (max_operations_chunk_size + 1) =? 0 then []
     else [n mod (max_operations_chunk_size + 1)]) /\
  Z.of_nat (length (submitted_rows rows index_name)) = n - n / (max_operations_chunk_size + 1).
Proof.
  intros n. pose proof (index_data_chunks_sizes index_name rows) as Hsizes.
  cbv zeta in Hsizes. fold n in Hsizes. split; [exact Hsizes|].
  unfold submitted_rows. rewrite length_concat_sources, Hsizes, sum_Z_app, sum_Z_repeat.
  assert (Hn : 0 <= n) by (unfold n; lia).
  unfold max_operations_chunk_size in *. change (10000 + 1) with 10001.
  pose proof (Z.div_mod n 10001 ltac:(lia)) as Hdiv.
  pose proof (Z.mod_pos_bound n 10001 ltac:(lia)) as Hmod.
  assert (Hq : 0 <= n / 10001) by (apply Z.div_pos; lia).
  destruct (Z.eqb_spec (n mod 10001) 0) as [Hzero|Hpos]; cbn [sum_Z fold_right]; lia.
Qed.

(** X4: [index_data] submits only rows of its input, each at most once and
    in the order of the input: the rows that the bulk requests carry are a
    sublist of the rows read. *)
Theorem index_data_submits_sublist rows index_name :
  submitted_rows rows index_name `sublist_of` rows.
Proof. rewrite submitted_rows_fold. apply submitted_sublist_fold. Qed.


(** ** The embedding batcher: errors, retries and requests *)

Section BatcherRuns.
Context {vector : Type}.
Variable provider : nat -> string -> list cell -> result (list vector).
Variable clock : nat -> Q.
Variables embedding_model_deployment_name text_column_name : string.

Let attempt_ := attempt provider clock embedding_model_deployment_name text_column_name.
Let process := process_partition provider clock embedding_model_deployment_name
                 text_column_name.
Let answers := answers_at provider embedding_model_deployment_name.
Let data := data_at provider embedding_model_deployment_name.

(** One attempt on a batch whose text column can be read: request number
    [requests_made s] is sent; an answer extends [embeddings], sets
    [success] and is followed by a throttling pause, a failure is followed
    by a back-off pause. *)
Lemma attempt_effects partition input i (s : batcher vector) :
  df_getitem partition text_column_name = Ok input ->
  exists s',
    attempt_ partition i s = (Ok tt, s') /\
    _values s' = _values s /\
    requests_made s' = S (requests_made s) /\
    success s' = success s || answers input (requests_made s) /\
    embeddings s' = embeddings s ++ data input (requests_made s) /\
    throttling_pauses s' =
      (throttling_pauses s + if answers input (requests_made s) then 1 else 0)%nat /\
    backoff_pauses s' =
      (backoff_pauses s + if answers input (requests_made s) then 0 else 1)%nat.
Proof.
  intros Hinput.
  unfold attempt_, attempt, try_except, bind, lift, perf_counter, Embedding_create,
    sleep, print, modify, gets, throttling_pauses, backoff_pauses, answers, data,
    answers_at, data_at.
  rewrite Hinput. cbn.
  destruct (provider (requests_made s) embedding_model_deployment_name input)
    as [vectors|e]; cbn; eexists; (split; [reflexivity|]); cbn;
    rewrite ?List.filter_app, ?length_app; cbn; eval_pauses;
    rewrite ?orb_true_r, ?orb_false_r, ?app_nil_r; repeat split; lia.
Qed.

(** One attempt on a batch whose text column cannot be read: no request is
    sent, the [KeyError] is caught and followed by a back-off pause. *)
Lemma attempt_unreadable partition e i (s : batcher vector) :
  df_getitem partition text_column_name = Raise e ->
  exists s',
    attempt_ partition i s = (Ok tt, s') /\
    _values s' = _values s /\
    requests_made s' = requests_made s /\
    success s' = success s /\
    embeddings s' = embeddings s /\
    throttling_pauses s' = throttling_pauses s /\
    backoff_pauses s' = S (backoff_pauses s).
Proof.
  intros Hinput.
  unfold attempt_, attempt, try_except, bind, lift, perf_counter, Embedding_create,
    sleep, print, modify, gets, throttling_pauses, backoff_pauses.
  rewrite Hinput. cbn. eexists. split; [reflexivity|]. cbn.
  rewrite ?List.filter_app, ?length_app. cbn. eval_pauses. repeat split; lia.
Qed.

(** [n] attempts in a row on a readable batch, in terms of the request
    numbers [requests_made s], ..., [requests_made s + n - 1] they use. *)
Lemma attempts_effects partition input n : forall a (s : batcher vector),
  df_getitem partition text_column_name = Ok input ->
  exists s',
    for_each (seq a n) (attempt_ partition) s = (Ok tt, s') /\
    _values s' = _values s /\
    requests_made s' = (requests_made s + n)%nat /\
    success s' = success s || existsb (answers input) (seq (requests_made s) n) /\
    embeddings s' = embeddings s ++ flat_map (data input) (seq (requests_made s) n) /\
    throttling_pauses s' =
      (throttling_pauses s +
       length (List.filter (answers input) (seq (requests_made s) n)))%nat /\
    backoff_pauses s' =
      (backoff_pauses s +
       length (List.filter (fun m => negb (answers input m)) (seq (requests_made s) n)))%nat.
Proof.
  induction n as [|n IH]; intros a s Hinput.
  - exists s. cbn. rewrite app_nil_r, orb_false_r. repeat split; lia.
  - cbn [seq for_each].
    destruct (attempt_effects partition input a s Hinput)
      as (s1 & Hrun1 & Hval1 & Hreq1 & Hsucc1 & Hemb1 & Hthr1 & Hback1).
    destruct (IH (S a) s1 Hinput)
      as (s2 & Hrun2 & Hval2 & Hreq2 & Hsucc2 & Hemb2 & Hthr2 & Hback2).
    exists s2. rewrite (bind_ok _ _ _ _ _ Hrun1). rewrite Hreq1 in *.
    split; [exact Hrun2|]. split; [congruence|]. split; [lia|].
    cbn [existsb flat_map List.filter].
    split; [rewrite Hsucc2, Hsucc1; now rewrite orb_assoc|].
    split; [rewrite Hemb2, Hemb1; now rewrite <- app_assoc|].
    destruct (answers input (requests_made s)); cbn [negb length]; split; lia.
Qed.

Lemma attempts_unreadable partition e n : forall a (s : batcher vector),
  df_getitem partition text_column_name = Raise e ->
  exists s',
    for_each (seq a n) (attempt_ partition) s = (Ok tt, s') /\
    _values s' = _values s /\
    requests_made s' = requests_made s /\
    success s' = success s /\
    embeddings s' = embeddings s /\
    throttling_pauses s' = throttling_pauses s /\
    backoff_pauses s' = (backoff_pauses s + n)%nat.
Proof.
  induction n as [|n IH]; intros a s Hinput.
  - exists s. cbn. repeat split; lia.
  - cbn [seq for_each].
    destruct (attempt_unreadable partition e a s Hinput)
      as (s1 & Hrun1 & Hval1 & Hreq1 & Hsucc1 & Hemb1 & Hthr1 & Hback1).
    destruct (IH (S a) s1 Hinput)
      as (s2 & Hrun2 & Hval2 & Hreq2 & Hsucc2 & Hemb2 & Hthr2 & Hback2).
    exists s2. rewrite (bind_ok _ _ _ _ _ Hrun1).
    split; [exact Hrun2|]. repeat split; try congruence; lia.
Qed.

(** What follows the attempts of a batch: the fatal error unless [success]
    is set. *)
Lemma process_partition_after partition (s s1 : batcher vector) :
  for_each (seq 0 retry_count) (attempt_ partition) (set_success vector false s) = (Ok tt, s1) ->
  process partition s =
    (if success s1 then Ok tt else Raise unable_to_generate, s1).
Proof.
  intros Hrun. unfold process, process_partition.
  unfold bind at 1. cbn [modify]. fold attempt_. rewrite (bind_ok _ _ _ _ _ Hrun).
  unfold bind, gets, raise, ret. now destruct (success s1).
Qed.

(** A readable batch: [retry_count] requests are sent in every case, and
    the batch is fatal exactly when none of them is answered. *)
Lemma process_partition_effects partition input (s : batcher vector) :
  df_getitem partition text_column_name = Ok input ->
  exists s',
    process partition s =
      (if batch_answered provider embedding_model_deployment_name input (requests_made s)
       then Ok tt else Raise unable_to_generate, s') /\
    _values s' = _values s /\
    requests_made s' = (requests_made s + retry_count)%nat /\
    embeddings s' =
      embeddings s ++ flat_map (data input) (seq (requests_made s) retry_count) /\
    throttling_pauses s' =
      (throttling_pauses s +
       length (List.filter (answers input) (seq (requests_made s) retry_count)))%nat /\
    backoff_pauses s' =
      (backoff_pauses s +
       length (List.filter (fun m => negb (answers input m))
                 (seq (requests_made s) retry_count)))%nat.
Proof.
  intros Hinput.
  destruct (attempts_effects partition input retry_count 0 (set_success vector false s) Hinput)
    as (s1 & Hrun & Hval & Hreq & Hsucc & Hemb & Hthr & Hback).
  exists s1. rewrite (process_partition_after partition s s1 Hrun).
  cbn [success set_success orb requests_made] in Hsucc.
  unfold batch_answered. fold answers. rewrite <- Hsucc.
  repeat split; assumption.
Qed.

(** An unreadable batch is fatal after [retry_count] back-off pauses and no
    request. *)
Lemma process_partition_unreadable partition e (s : batcher vector) :
  df_getitem partition text_column_name = Raise e ->
  exists s',
    process partition s = (Raise unable_to_generate, s') /\
    _values s' = _values s /\
    requests_made s' = requests_made s /\
    embeddings s' = embeddings s /\
    throttling_pauses s' = throttling_pauses s /\
    backoff_pauses s' = (backoff_pauses s + retry_count)%nat.
Proof.
  intros Hinput.
  destruct (attempts_unreadable partition e retry_count 0 (set_success vector false s) Hinput)
    as (s1 & Hrun & Hval & Hreq & Hsucc & Hemb & Hthr & Hback).
  exists s1. rewrite (process_partition_after partition s s1 Hrun).
  cbn [success set_success] in Hsucc. rewrite Hsucc.
  repeat split; assumption.
Qed.

(** No batch sends more than [retry_count] requests. *)
Lemma process_partition_requests partition (s : batcher vector) :
  (requests_made (snd (process partition s)) <= requests_made s + retry_count)%nat.
Proof.
  destruct (df_getitem partition text_column_name) as [input|e] eqn:Hinput.
  - destruct (process_partition_effects partition input s Hinput) as (s' & Hrun & _ & Hreq & _).
    rewrite Hrun. cbn [snd]. lia.
  - destruct (process_partition_unreadable partition e s Hinput) as (s' & Hrun & _ & Hreq & _).
    rewrite Hrun. cbn [snd]. lia.
Qed.

Lemma for_each_partition_requests partitions : forall s : batcher vector,
  (requests_made (snd (for_each partitions process s))
   <= requests_made s + retry_count * length partitions)%nat.
Proof.
  induction partitions as [|p partitions IH]; intros s; [cbn; lia|].
  cbn [for_each length]. unfold bind.
  pose proof (process_partition_requests p s) as Hp.
  destruct (process p s) as [[[]|e] s1]; cbn [snd] in *; [|lia].
  specialize (IH s1). lia.
Qed.

Variable globals : gmap string value.
Variables dataset_name embeddings_column_name model_name : string.

Let run := get_dataframe_with_aoai_embeddings provider clock globals dataset_name
             embedding_model_deployment_name text_column_name embeddings_column_name
             model_name.

(** The call around its loop: the loop starts with empty [embeddings], the
    request counter and the trace of the caller; a fatal error in the loop is
    the outcome of the call; after the loop nothing is requested, nothing
    pauses, [embeddings] is left alone and the fatal error cannot occur. *)
Lemma run_loop (s : batcher vector) df partitions :
  _values s !! dataset_name = Some df ->
  partition_dataframe df = Ok partitions ->
  exists s0,
    _values s0 = _values s /\ embeddings s0 = [] /\
    requests_made s0 = requests_made s /\
    throttling_pauses s0 = throttling_pauses s /\ backoff_pauses s0 = backoff_pauses s /\
    (forall e s1, for_each partitions process s0 = (Raise e, s1) -> run s = (Raise e, s1)) /\
    (forall s1, for_each partitions process s0 = (Ok tt, s1) ->
       exists r s2,
         run s = (r, s2) /\ r <> Raise unable_to_generate /\
         requests_made s2 = requests_made s1 /\ embeddings s2 = embeddings s1 /\
         throttling_pauses s2 = throttling_pauses s1 /\
         backoff_pauses s2 = backoff_pauses s1).
Proof.
  intros Hdf Hsplit.
  exists (Batcher vector (_values s) [] [] (success s) (requests_made s)
            (S (clock_reads s)) (trace s)).
  do 5 (split; [reflexivity|]).
  split.
  - intros e s1 Hloop. unfold run, get_dataframe_with_aoai_embeddings.
    unfold bind at 1. cbn [gets]. unfold bind at 1. unfold lift at 1.
    cbn [dict_getitem]. rewrite Hdf. unfold bind at 1. unfold lift at 1.
    unfold partition_dataframe in Hsplit. rewrite Hsplit.
    unfold bind at 1. cbn [modify]. unfold bind at 1. cbn [modify].
    unfold bind at 1. cbn [perf_counter]. unfold bind at 1.
    cbn [set_embeddings set_request_times _values embeddings request_times success
           requests_made clock_reads trace].
    fold process. now rewrite Hloop.
  - intros s1 Hloop. unfold run, get_dataframe_with_aoai_embeddings.
    unfold bind at 1. cbn [gets]. unfold bind at 1. unfold lift at 1.
    cbn [dict_getitem]. rewrite Hdf. unfold bind at 1. unfold lift at 1.
    unfold partition_dataframe in Hsplit. rewrite Hsplit.
    unfold bind at 1. cbn [modify]. unfold bind at 1. cbn [modify].
    unfold bind at 1. cbn [perf_counter]. unfold bind at 1.
    cbn [set_embeddings set_request_times _values embeddings request_times success
           requests_made clock_reads trace].
    fold process. rewrite Hloop.
    unfold throttling_pauses, backoff_pauses, unable_to_generate.
    unfold bind, lift, gets, print, modify, perf_counter, emit.
    destruct (load_global globals "text_embeddings_column_name") as [column|e] eqn:Hcol;
      simpl_state;
      [|eexists _, _; split; [reflexivity|]; simpl_state;
        split; [unfold load_global in Hcol; destruct (globals !! _); congruence | auto]].
    destruct (compare_column vector df column (embeddings s1)) as [[]|e] eqn:Hcmp;
      simpl_state;
      [|eexists _, _; split; [reflexivity|]; simpl_state; split; [|auto];
        unfold compare_column, df_getitem in Hcmp;
        destruct column as [|c| |]; try congruence;
        destruct (column_index c (df_columns df)); [|congruence];
        destruct (_ =? _)%nat; [destruct (embeddings s1)|]; congruence].
    destruct (last partitions) as [partition|];
      simpl_state; [|eexists _, _; split; [reflexivity|]; simpl_state; split; [discriminate | auto]].
    destruct (mean (request_times s1)) as [average|e] eqn:Hmean;
      simpl_state;
      [|eexists _, _; split; [reflexivity|]; simpl_state; split; [|auto];
        unfold mean in Hmean; destruct (request_times s1); congruence].
    eexists _, _. split; [reflexivity|]. simpl_state.
    rewrite !List.filter_app, !length_app. cbn [List.filter is_throttling_pause is_backoff_pause length].
    repeat split; try discriminate; lia.
Qed.
End BatcherRuns.

(** A successful partitioning step: the batches keep the columns, there is
    at least one, and end to end they are the rows. *)
Lemma partition_dataframe_ok df partitions :
  partition_dataframe df = Ok partitions ->
  df_rows df <> [] /\
  partitions <> [] /\
  Forall (fun p => df_columns p = df_columns df) partitions /\
  concat (map df_rows partitions) = df_rows df /\
  Z.of_nat (length partitions) = ceil_div (df_len df) maximum_batch_size.
Proof.
  intros Hsplit.
  assert (Hrows : df_rows df <> []).
  { intros Hempty. destruct df as [cols rows]. cbn in Hempty. subst rows.
    rewrite partition_dataframe_empty in Hsplit. discriminate. }
  destruct (partition_dataframe_spec df Hrows) as (ps & Hps & Hconcat & Hcount & Hall & _).
  rewrite Hsplit in Hps. injection Hps as <-.
  split; [exact Hrows|]. split.
  - intros ->. cbn in Hconcat. congruence.
  - split; [|split; assumption].
    eapply Forall_impl; [exact Hall|]. cbn. intros p [Hp _]. exact Hp.
Qed.

Lemma df_getitem_readable df p col j :
  column_index col (df_columns df) = Some j ->
  df_columns p = df_columns df ->
  df_getitem p col = Ok (column_cells j p).
Proof. intros Hcol Hp. unfold df_getitem. now rewrite Hp, Hcol. Qed.

Lemma df_getitem_unreadable df p col :
  column_index col (df_columns df) = None ->
  df_columns p = df_columns df ->
  df_getitem p col = Raise (KeyError (VStr col)).
Proof. intros Hcol Hp. unfold df_getitem. now rewrite Hp, Hcol. Qed.

Section NeverTrue.
Context {A : Type}.
Variable g : A -> bool.
Hypothesis never : forall x, g x = false.

Lemma existsb_never l : existsb g l = false.
Proof. induction l as [|x l IH]; cbn; [reflexivity | now rewrite never]. Qed.

Lemma filter_never l : List.filter g l = [].
Proof. induction l as [|x l IH]; cbn; [reflexivity | now rewrite never]. Qed.

Lemma filter_negb_never l : List.filter (fun x => negb (g x)) l = l.
Proof. induction l as [|x l IH]; cbn; [reflexivity | now rewrite never, IH]. Qed.
End NeverTrue.

Lemma flat_map_nil {A B} (h : A -> list B) l : (forall x, h x = []) -> flat_map h l = [].
Proof. intros Hnil. induction l as [|x l IH]; cbn; [reflexivity | now rewrite Hnil, IH]. Qed.

Lemma data_at_unanswered {vector} (provider : nat -> string -> list cell -> result (list vector))
    deployment_id input n :
  answers_at provider deployment_id input n = false ->
  data_at provider deployment_id input n = [].
Proof.
  unfold answers_at, data_at. now destruct (provider n deployment_id input).
Qed.

(** X8: a dataset name that the object does not hold is a [KeyError], raised
    before anything else happens: no request is sent, no clock is read,
    nothing is printed. *)
Theorem unknown_dataset_key_error {vector : Type}
    (provider : nat -> string -> list cell -> result (list vector)) (clock : nat -> Q)
    (globals : gmap string value)
    (dataset_name embedding_model_deployment_name text_column_name embeddings_column_name
       model_name : string)
    (s : batcher vector) :
  _values s !! dataset_name = None ->
  get_dataframe_with_aoai_embeddings provider clock globals dataset_name
    embedding_model_deployment_name text_column_name embeddings_column_name model_name s
  = (Raise (KeyError (VStr dataset_name)), s).
Proof.
  intros Hmissing. unfold get_dataframe_with_aoai_embeddings, bind, gets, lift.
  cbn [dict_getitem]. now rewrite Hmissing.
Qed.

Lemma unknown_dataset_key_error_witness :
  (_values (@fresh string {["msmarco" := two_rows]})) !! "trec" = None /\
  get_dataframe_with_aoai_embeddings echo_provider sample_clock
    (notebook_globals sample_inputs) "trec" "text-embedding-ada-002" "text"
    "text_embedding.aoai_predicted_value" "text-embedding-ada-002"
    (fresh {["msmarco" := two_rows]})
  = (Raise (KeyError (VStr "trec")), fresh {["msmarco" := two_rows]}).
Proof.
  split; [vm_compute; reflexivity|].
  apply (unknown_dataset_key_error echo_provider sample_clock
           (notebook_globals sample_inputs) "trec" "text-embedding-ada-002" "text"
           "text_embedding.aoai_predicted_value" "text-embedding-ada-002"
           (fresh {["msmarco" := two_rows]})).
  vm_compute. reflexivity.
Defined.

(** X9: on a table without rows the number of buckets is zero and
    [np.array_split] refuses it: the call raises [ValueError] before any
    request is sent, any clock read or anything printed. *)
Theorem empty_table_value_error {vector : Type}
    (provider : nat -> string -> list cell -> result (list vector)) (clock : nat -> Q)
    (globals : gmap string value)
    (dataset_name embedding_model_deployment_name text_column_name embeddings_column_name
       model_name : string)
    (s : batcher vector) df :
  _values s !! dataset_name = Some df ->
  df_rows df = [] ->
  get_dataframe_with_aoai_embeddings provider clock globals dataset_name
    embedding_model_deployment_name text_column_name embeddings_column_name model_name s
  = (Raise (ValueError "number sections must be larger than 0."), s).
Proof.
  intros Hdf Hempty. unfold get_dataframe_with_aoai_embeddings, bind, gets, lift.
  cbn [dict_getitem]. rewrite Hdf.
  destruct df as [cols rows]. cbn in Hempty. subst rows. reflexivity.
Qed.

Lemma empty_table_value_error_witness :
  df_rows (numbered_table 0) = [] /\
  get_dataframe_with_aoai_embeddings echo_provider sample_clock
    (notebook_globals sample_inputs) "msmarco" "text-embedding-ada-002" "text"
    "text_embedding.aoai_predicted_value" "text-embedding-ada-002"
    (fresh {["msmarco" := numbered_table 0]})
  = (Raise (ValueError "number sections must be larger than 0."),
     fresh {["msmarco" := numbered_table 0]}).
Proof.
  split; [reflexivity|].
  apply (empty_table_value_error echo_provider sample_clock
           (notebook_globals sample_inputs) "msmarco" "text-embedding-ada-002" "text"
           "text_embedding.aoai_predicted_value" "text-embedding-ada-002"
           (fresh {["msmarco" := numbered_table 0]}) (numbered_table 0)).
  - vm_compute. reflexivity.
  - reflexivity.
Defined.

(** X10: with a provider that never answers, the call gives up on the first
    batch: it sends exactly [retry_count = 20] requests, each followed by a
    back-off pause of 5, never pauses for throttling, accumulates no
    embedding and ends in the fatal error; the batches that follow are not
    requested. *)
Theorem silent_provider_fatal {vector : Type}
    (provider : nat -> string -> list cell -> result (list vector)) (clock : nat -> Q)
    (globals : gmap string value)
    (dataset_name embedding_model_deployment_name text_column_name embeddings_column_name
       model_name : string)
    (s : batcher vector) df j :
  _values s !! dataset_name = Some df ->
  df_rows df <> [] ->
  column_index text_column_name (df_columns df) = Some j ->
  (forall n input, answers_at provider embedding_model_deployment_name input n = false) ->
  exists s',
    get_dataframe_with_aoai_embeddings provider clock globals dataset_name
      embedding_model_deployment_name text_column_name embeddings_column_name model_name s
    = (Raise unable_to_generate, s') /\
    requests_made s' = (requests_made s + retry_count)%nat /\
    backoff_pauses s' = (backoff_pauses s + retry_count)%nat /\
    throttling_pauses s' = throttling_pauses s /\
    embeddings s' = [].
Proof.
  intros Hdf Hrows Hcol Hsilent.
  destruct (partition_dataframe_spec df Hrows) as (partitions & Hsplit & _).
  destruct (partition_dataframe_ok df partitions Hsplit) as (_ & Hsome & Hcols & _).
  destruct partitions as [|p partitions]; [contradiction|].
  inversion Hcols as [|? ? Hp _]; subst.
  destruct (run_loop provider clock embedding_model_deployment_name text_column_name globals
              dataset_name embeddings_column_name model_name s df (p :: partitions) Hdf Hsplit)
    as (s0 & _ & Hemb0 & Hreq0 & Hthr0 & Hback0 & Hraise & _).
  destruct (process_partition_effects provider clock embedding_model_deployment_name
              text_column_name p _ s0 (df_getitem_readable df p _ j Hcol Hp))
    as (s1 & Hrun & _ & Hreq & Hemb & Hthr & Hback).
  unfold batch_answered in Hrun. rewrite existsb_never in Hrun by (intros m; apply Hsilent).
  rewrite filter_never in Hthr by (intros m; apply Hsilent).
  rewrite filter_negb_never, length_seq in Hback by (intros m; apply Hsilent).
  rewrite flat_map_nil, app_nil_r in Hemb
    by (intros n; apply data_at_unanswered, Hsilent).
  exists s1. split.
  - apply Hraise. cbn [for_each]. now apply bind_raise.
  - cbn [length] in Hthr. repeat split; try congruence; lia.
Qed.

Lemma silent_provider_fatal_witness :
  df_rows (numbered_table 17) <> [] /\
  exists s',
    notebook_call silent_provider (numbered_table 17) = (Raise unable_to_generate, s') /\
    requests_made s' =
      (requests_made (@fresh string {["msmarco" := numbered_table 17]}) + retry_count)%nat /\
    backoff_pauses s' =
      (backoff_pauses (@fresh string {["msmarco" := numbered_table 17]}) + retry_count)%nat /\
    throttling_pauses s' = throttling_pauses (@fresh string {["msmarco" := numbered_table 17]}) /\
    embeddings s' = [].
Proof.
  split; [vm_compute; discriminate|]. unfold notebook_call.
  apply (silent_provider_fatal silent_provider sample_clock (notebook_globals sample_inputs)
           "msmarco" (in_embedding_model_deployment_name sample_inputs) "text"
           "text_embedding.aoai_predicted_value" "text-embedding-ada-002"
           (fresh {["msmarco" := numbered_table 17]}) (numbered_table 17) 1).
  - vm_compute. reflexivity.
  - vm_compute. discriminate.
  - vm_compute. reflexivity.
  - intros n input. reflexivity.
Defined.

(** X11: when the table has no column named [text_column_name], the
    [KeyError] of every attempt is caught by the retry loop like a provider
    error: the call sends no request at all, pauses 20 times for back-off and
    ends in the fatal "Unable to generate embeddings" error, not in a
    [KeyError]. *)
Theorem unreadable_column_fatal {vector : Type}
    (provider : nat -> string -> list cell -> result (list vector)) (clock : nat -> Q)
    (globals : gmap string value)
    (dataset_name embedding_model_deployment_name text_column_name embeddings_column_name
       model_name : string)
    (s : batcher vector) df :
  _values s !! dataset_name = Some df ->
  df_rows df <> [] ->
  column_index text_column_name (df_columns df) = None ->
  exists s',
    get_dataframe_with_aoai_embeddings provider clock globals dataset_name
      embedding_model_deployment_name text_column_name embeddings_column_name model_name s
    = (Raise unable_to_generate, s') /\
    requests_made s' = requests_made s /\
    backoff_pauses s' = (backoff_pauses s + retry_count)%nat /\
    embeddings s' = [].
Proof.
  intros Hdf Hrows Hcol.
  destruct (partition_dataframe_spec df Hrows) as (partitions & Hsplit & _).
  destruct (partition_dataframe_ok df partitions Hsplit) as (_ & Hsome & Hcols & _).
  destruct partitions as [|p partitions]; [contradiction|].
  inversion Hcols as [|? ? Hp _]; subst.
  destruct (run_loop provider clock embedding_model_deployment_name text_column_name globals
              dataset_name embeddings_column_name model_name s df (p :: partitions) Hdf Hsplit)
    as (s0 & _ & Hemb0 & Hreq0 & Hthr0 & Hback0 & Hraise & _).
  destruct (process_partition_unreadable provider clock embedding_model_deployment_name
              text_column_name p _ s0 (df_getitem_unreadable df p _ Hcol Hp))
    as (s1 & Hrun & _ & Hreq & Hemb & Hthr & Hback).
  exists s1. split.
  - apply Hraise. cbn [for_each]. now apply bind_raise.
  - repeat split; try congruence; lia.
Qed.

Lemma unreadable_column_fatal_witness :
  df_rows ids_only <> [] /\
  exists s',
    notebook_call echo_provider ids_only = (Raise unable_to_generate, s') /\
    requests_made s' = requests_made (@fresh string {["msmarco" := ids_only]}) /\
    backoff_pauses s' =
      (backoff_pauses (@fresh string {["msmarco" := ids_only]}) + retry_count)%nat /\
    embeddings s' = [].
Proof.
  split; [vm_compute; discriminate|]. unfold notebook_call.
  apply (unreadable_column_fatal echo_provider sample_clock (notebook_globals sample_inputs)
           "msmarco" (in_embedding_model_deployment_name sample_inputs) "text"
           "text_embedding.aoai_predicted_value" "text-embedding-ada-002"
           (fresh {["msmarco" := ids_only]}) ids_only).
  - vm_compute. reflexivity.
  - vm_compute. discriminate.
  - vm_compute. reflexivity.
Defined.

(** X12: whatever the provider does, the call never sends more than
    [retry_count = 20] requests per batch: at most
    [20 * ceil(len(df) / 16)] requests in all. *)
Theorem requests_bounded {vector : Type}
    (provider : nat -> string -> list cell -> result (list vector)) (clock : nat -> Q)
    (globals : gmap string value)
    (dataset_name embedding_model_deployment_name text_column_name embeddings_column_name
       model_name : string)
    (s : batcher vector) df :
  _values s !! dataset_name = Some df ->
  (requests_made
     (snd (get_dataframe_with_aoai_embeddings provider clock globals dataset_name
             embedding_model_deployment_name text_column_name embeddings_column_name
             model_name s))
   <= requests_made s +
      retry_count * Z.to_nat (ceil_div (df_len df) maximum_batch_size))%nat.
Proof.
  intros Hdf.
  destruct (partition_dataframe df) as [partitions|e] eqn:Hsplit.
  - destruct (partition_dataframe_ok df partitions Hsplit) as (_ & _ & _ & _ & Hcount).
    destruct (run_loop provider clock embedding_model_deployment_name text_column_name globals
                dataset_name embeddings_column_name model_name s df partitions Hdf Hsplit)
      as (s0 & _ & _ & Hreq0 & _ & _ & Hraise & Hok).
    pose proof (for_each_partition_requests provider clock embedding_model_deployment_name
                  text_column_name partitions s0) as Hbound.
    rewrite <- Hcount, Nat2Z.id.
    destruct (for_each partitions _ s0) as [[[]|e] s1] eqn:Hloop; cbn [snd] in Hbound.
    + destruct (Hok s1 eq_refl) as (r & s2 & Hrun & _ & Hreq2 & _). rewrite Hrun. cbn [snd]. lia.
    + rewrite (Hraise e s1 eq_refl). cbn [snd]. lia.
  - unfold get_dataframe_with_aoai_embeddings, bind, gets, lift.
    cbn [dict_getitem]. rewrite Hdf. unfold partition_dataframe in Hsplit. rewrite Hsplit.
    cbn [snd]. lia.
Qed.

Lemma requests_bounded_witness :
  (requests_made (snd (notebook_call flaky_provider (numbered_table 17)))
   <= requests_made (@fresh string {["msmarco" := numbered_table 17]}) +
      retry_count * Z.to_nat (ceil_div (df_len (numbered_table 17)) maximum_batch_size))%nat.
Proof.
  unfold notebook_call.
  apply (requests_bounded flaky_provider sample_clock (notebook_globals sample_inputs)
           "msmarco" (in_embedding_model_deployment_name sample_inputs) "text"
           "text_embedding.aoai_predicted_value" "text-embedding-ada-002"
           (fresh {["msmarco" := numbered_table 17]}) (numbered_table 17)).
  vm_compute. reflexivity.
Defined.

Section BatcherOutcome.
Context {vector : Type}.
Variable provider : nat -> string -> list cell -> result (list vector).
Variable clock : nat -> Q.
Variables embedding_model_deployment_name text_column_name : string.
Variable j : nat.

Let process := process_partition provider clock embedding_model_deployment_name
                 text_column_name.
Let answered (p : DataFrame) (first : nat) : bool :=
  batch_answered provider embedding_model_deployment_name (column_cells j p) first.
Let readable (p : DataFrame) : Prop :=
  df_getitem p text_column_name = Ok (column_cells j p).

(** The loop over readable batches either goes through every batch, each
    with an answered request, or ends in the fatal error at a batch whose
    [retry_count] requests all fail. *)
Lemma for_each_partition_cases partitions : forall s : batcher vector,
  Forall readable partitions ->
  (exists s',
     for_each partitions process s = (Ok tt, s') /\
     forall k p, partitions !! k = Some p ->
       answered p (requests_made s + retry_count * k) = true) \/
  (exists k p s',
     partitions !! k = Some p /\
     answered p (requests_made s + retry_count * k) = false /\
     for_each partitions process s = (Raise unable_to_generate, s')).
Proof.
  induction partitions as [|q partitions IH]; intros s Hall.
  - left. exists s. split; [reflexivity | intros k p Hk; discriminate].
  - inversion Hall as [|? ? Hq Hrest]; subst.
    destruct (process_partition_effects provider clock embedding_model_deployment_name
                text_column_name q _ s Hq) as (s1 & Hrun & _ & Hreq & _).
    fold (answered q (requests_made s)) in Hrun. fold process in Hrun.
    destruct (answered q (requests_made s)) eqn:Hans.
    + destruct (IH s1 Hrest) as [(s2 & Hrun2 & Hevery) | (k & p & s2 & Hk & Hnone & Hrun2)].
      * left. exists s2. cbn [for_each]. rewrite (bind_ok _ _ _ _ _ Hrun).
        split; [exact Hrun2|]. intros [|k] p Hk.
        -- injection Hk as <-. now rewrite Nat.mul_0_r, Nat.add_0_r.
        -- specialize (Hevery k p Hk). rewrite Hreq in Hevery.
           replace (requests_made s + retry_count * S k)%nat
             with (requests_made s + retry_count + retry_count * k)%nat by lia.
           exact Hevery.
      * right. exists (S k), p, s2. split; [exact Hk|]. split.
        -- rewrite Hreq in Hnone.
           replace (requests_made s + retry_count * S k)%nat
             with (requests_made s + retry_count + retry_count * k)%nat by lia.
           exact Hnone.
        -- cbn [for_each]. now rewrite (bind_ok _ _ _ _ _ Hrun).
    + right. exists 0%nat, q, s1. split; [reflexivity|]. split.
      * now rewrite Nat.mul_0_r, Nat.add_0_r.
      * cbn [for_each]. now apply bind_raise.
Qed.

Variable f : cell -> vector.

(** The provider answers the requests whose number is a multiple of
    [retry_count], and only those. *)
Hypothesis first_answered : forall n input,
  (n mod retry_count = 0)%nat ->
  provider n embedding_model_deployment_name input = Ok (map f input).
Hypothesis rest_unanswered : forall n input,
  (n mod retry_count <> 0)%nat ->
  answers_at provider embedding_model_deployment_name input n = false.

Lemma unanswered_requests input l :
  Forall (fun n => (n mod retry_count <> 0)%nat) l ->
  existsb (answers_at provider embedding_model_deployment_name input) l = false /\
  flat_map (data_at provider embedding_model_deployment_name input) l = [] /\
  List.filter (answers_at provider embedding_model_deployment_name input) l = [] /\
  List.filter (fun m => negb (answers_at provider embedding_model_deployment_name input m)) l = l.
Proof.
  induction 1 as [|n l Hn _ (Hex & Hflat & Hfil & Hneg)]; [repeat split|].
  cbn. rewrite (rest_unanswered n input Hn), Hex, Hflat, Hfil, Hneg.
  rewrite (data_at_unanswered provider _ input n (rest_unanswered n input Hn)).
  repeat split.
Qed.

(** A batch whose first request has a number that is a multiple of
    [retry_count]: one answer, nineteen failures. *)
Lemma first_request_only input first :
  (first mod retry_count = 0)%nat ->
  batch_answered provider embedding_model_deployment_name input first = true /\
  flat_map (data_at provider embedding_model_deployment_name input) (seq first retry_count)
    = map f input /\
  length (List.filter (answers_at provider embedding_model_deployment_name input)
            (seq first retry_count)) = 1%nat /\
  length (List.filter
            (fun m => negb (answers_at provider embedding_model_deployment_name input m))
            (seq first retry_count)) = 19%nat.
Proof.
  intros Hfirst.
  assert (Hrest : Forall (fun n => (n mod retry_count <> 0)%nat) (seq (S first) 19)).
  { apply Forall_forall. intros m Hm. apply list_elem_of_In, in_seq in Hm.
    unfold retry_count in *.
    pose proof (Nat.div_mod_eq first 20). pose proof (Nat.div_mod_eq m 20).
    pose proof (Nat.mod_upper_bound m 20 ltac:(lia)). lia. }
  destruct (unanswered_requests input _ Hrest) as (Hex & Hflat & Hfil & Hneg).
  unfold batch_answered.
  change (seq first retry_count) with (first :: seq (S first) 19).
  assert (Hans : answers_at provider embedding_model_deployment_name input first = true)
    by (unfold answers_at; now rewrite (first_answered first input Hfirst)).
  assert (Hdat : data_at provider embedding_model_deployment_name input first = map f input)
    by (unfold data_at; now rewrite (first_answered first input Hfirst)).
  cbn [existsb flat_map List.filter]. rewrite Hans, Hdat.
  cbn [negb orb]. rewrite Hflat, Hfil, Hneg, app_nil_r, length_seq. repeat split.
Qed.

Lemma for_each_partition_first_only partitions : forall s : batcher vector,
  (requests_made s mod retry_count = 0)%nat ->
  Forall readable partitions ->
  exists s',
    for_each partitions process s = (Ok tt, s') /\
    embeddings s' = embeddings s ++ flat_map (fun p => map f (column_cells j p)) partitions /\
    requests_made s' = (requests_made s + retry_count * length partitions)%nat /\
    throttling_pauses s' = (throttling_pauses s + length partitions)%nat /\
    backoff_pauses s' = (backoff_pauses s + 19 * length partitions)%nat.
Proof.
  induction partitions as [|q partitions IH]; intros s Hmod Hall.
  - exists s. cbn. rewrite app_nil_r. repeat split; lia.
  - inversion Hall as [|? ? Hq Hrest]; subst.
    destruct (process_partition_effects provider clock embedding_model_deployment_name
                text_column_name q _ s Hq) as (s1 & Hrun & _ & Hreq & Hemb & Hthr & Hback).
    destruct (first_request_only (column_cells j q) (requests_made s) Hmod)
      as (Hans & Hdata & Hone & Hnineteen).
    rewrite Hans in Hrun. rewrite Hdata in Hemb. rewrite Hone in Hthr. rewrite Hnineteen in Hback.
    destruct (IH s1) as (s2 & Hrun2 & Hemb2 & Hreq2 & Hthr2 & Hback2); [|exact Hrest|].
    { rewrite Hreq. unfold retry_count in *.
      pose proof (Nat.div_mod_eq (requests_made s) 20).
      pose proof (Nat.div_mod_eq (requests_made s + 20) 20).
      pose proof (Nat.mod_upper_bound (requests_made s + 20) 20 ltac:(lia)). lia. }
    exists s2. cbn [for_each flat_map length]. fold process in Hrun.
    rewrite (bind_ok _ _ _ _ _ Hrun). split; [exact Hrun2|].
    rewrite Hemb2, Hemb, <- app_assoc. repeat split; lia.
Qed.
End BatcherOutcome.

Lemma flat_map_column_cells {B} (g : cell -> B) j df partitions :
  concat (map df_rows partitions) = df_rows df ->
  flat_map (fun p => map g (column_cells j p)) partitions = map g (column_cells j df).
Proof.
  intros Hconcat. unfold column_cells. rewrite <- Hconcat. clear Hconcat.
  induction partitions as [|p partitions IH]; cbn [flat_map map concat]; [reflexivity|].
  now rewrite IH, !map_app.
Qed.

Lemma readable_partitions df partitions col j :
  column_index col (df_columns df) = Some j ->
  Forall (fun p => df_columns p = df_columns df) partitions ->
  Forall (fun p => df_getitem p col = Ok (column_cells j p)) partitions.
Proof.
  intros Hcol Hcols. eapply Forall_impl; [exact Hcols|]. cbn.
  intros p Hp. now apply (df_getitem_readable df).
Qed.

(** X13: on a table whose text column can be read, the call ends in the
    fatal "Unable to generate embeddings" error exactly when some batch has
    all of its 20 requests fail; one answered request out of the 20 is
    enough for a batch to go through.  The requests of batch number [k] are
    those numbered from [20 * k] after the requests made before the call. *)
Theorem fatal_iff_batch_unanswered {vector : Type}
    (provider : nat -> string -> list cell -> result (list vector)) (clock : nat -> Q)
    (globals : gmap string value)
    (dataset_name embedding_model_deployment_name text_column_name embeddings_column_name
       model_name : string)
    (s : batcher vector) df partitions j :
  _values s !! dataset_name = Some df ->
  partition_dataframe df = Ok partitions ->
  column_index text_column_name (df_columns df) = Some j ->
  fst (get_dataframe_with_aoai_embeddings provider clock globals dataset_name
         embedding_model_deployment_name text_column_name embeddings_column_name
         model_name s) = Raise unable_to_generate
  <->
  exists k p,
    partitions !! k = Some p /\
    batch_answered provider embedding_model_deployment_name (column_cells j p)
      (requests_made s + retry_count * k) = false.
Proof.
  intros Hdf Hsplit Hcol.
  destruct (partition_dataframe_ok df partitions Hsplit) as (_ & _ & Hcols & _).
  destruct (run_loop provider clock embedding_model_deployment_name text_column_name globals
              dataset_name embeddings_column_name model_name s df partitions Hdf Hsplit)
    as (s0 & _ & _ & Hreq0 & _ & _ & Hraise & Hok).
  destruct (for_each_partition_cases provider clock embedding_model_deployment_name
              text_column_name j partitions s0
              (readable_partitions df partitions _ j Hcol Hcols))
    as [(s1 & Hloop & Hevery) | (k & p & s1 & Hk & Hnone & Hloop)];
    rewrite Hreq0 in *.
  - destruct (Hok s1 Hloop) as (r & s2 & Hrun & Hr & _). rewrite Hrun. cbn [fst]. split.
    + intros Hfatal. contradiction.
    + intros (k & p & Hk & Hnone). rewrite (Hevery k p Hk) in Hnone. discriminate.
  - rewrite (Hraise _ s1 Hloop). cbn [fst]. split; [|reflexivity].
    intros _. exists k, p. split; assumption.
Qed.

Lemma fatal_iff_batch_unanswered_witness :
  fst (notebook_call flaky_provider (numbered_table 17)) = Raise unable_to_generate
  <->
  exists k p,
    seventeen_batches !! k = Some p /\
    batch_answered flaky_provider (in_embedding_model_deployment_name sample_inputs)
      (column_cells 1 p)
      (requests_made (@fresh string {["msmarco" := numbered_table 17]}) + retry_count * k)
    = false.
Proof.
  unfold notebook_call.
  apply (fatal_iff_batch_unanswered flaky_provider sample_clock (notebook_globals sample_inputs)
           "msmarco" (in_embedding_model_deployment_name sample_inputs) "text"
           "text_embedding.aoai_predicted_value" "text-embedding-ada-002"
           (fresh {["msmarco" := numbered_table 17]}) (numbered_table 17) seventeen_batches 1).
  - vm_compute. reflexivity.
  - vm_compute. reflexivity.
  - vm_compute. reflexivity.
Defined.

(** X14: when the provider answers exactly the first request of every batch
    (and fails the retries that the loop goes on to make), the loop visits
    every batch and [embeddings] ends up with exactly one vector per input
    text, in the order of the texts; the call has paused once for throttling
    and 19 times for back-off per batch. *)
Theorem one_answer_per_batch {vector : Type} (f : cell -> vector)
    (provider : nat -> string -> list cell -> result (list vector)) (clock : nat -> Q)
    (globals : gmap string value)
    (dataset_name embedding_model_deployment_name text_column_name embeddings_column_name
       model_name : string)
    (s : batcher vector) df j :
  _values s !! dataset_name = Some df ->
  df_rows df <> [] ->
  column_index text_column_name (df_columns df) = Some j ->
  (requests_made s mod retry_count = 0)%nat ->
  (forall n input, (n mod retry_count = 0)%nat ->
     provider n embedding_model_deployment_name input = Ok (map f input)) ->
  (forall n input, (n mod retry_count <> 0)%nat ->
     answers_at provider embedding_model_deployment_name input n = false) ->
  exists partitions r s',
    partition_dataframe df = Ok partitions /\
    get_dataframe_with_aoai_embeddings provider clock globals dataset_name
      embedding_model_deployment_name text_column_name embeddings_column_name model_name s
    = (r, s') /\
    r <> Raise unable_to_generate /\
    embeddings s' = map f (column_cells j df) /\
    throttling_pauses s' = (throttling_pauses s + length partitions)%nat /\
    backoff_pauses s' = (backoff_pauses s + 19 * length partitions)%nat.
Proof.
  intros Hdf Hrows Hcol Hmod Hfirst Hrest.
  destruct (partition_dataframe_spec df Hrows) as (partitions & Hsplit & _).
  destruct (partition_dataframe_ok df partitions Hsplit) as (_ & _ & Hcols & Hconcat & _).
  destruct (run_loop provider clock embedding_model_deployment_name text_column_name globals
              dataset_name embeddings_column_name model_name s df partitions Hdf Hsplit)
    as (s0 & _ & Hemb0 & Hreq0 & Hthr0 & Hback0 & _ & Hok).
  destruct (for_each_partition_first_only provider clock embedding_model_deployment_name
              text_column_name j f Hfirst Hrest partitions s0)
    as (s1 & Hloop & Hemb1 & Hreq1 & Hthr1 & Hback1).
  { now rewrite Hreq0. }
  { exact (readable_partitions df partitions _ j Hcol Hcols). }
  destruct (Hok s1 Hloop) as (r & s2 & Hrun & Hr & Hreq2 & Hemb2 & Hthr2 & Hback2).
  exists partitions, r, s2. split; [exact Hsplit|]. split; [exact Hrun|]. split; [exact Hr|].
  split; [|split; lia].
  rewrite Hemb2, Hemb1, Hemb0. cbn [app]. now apply flat_map_column_cells.
Qed.

Lemma one_answer_per_batch_witness :
  df_rows (numbered_table 17) <> [] /\
  exists partitions r s',
    partition_dataframe (numbered_table 17) = Ok partitions /\
    notebook_call first_attempt_provider (numbered_table 17) = (r, s') /\
    r <> Raise unable_to_generate /\
    embeddings s' = map embed (column_cells 1 (numbered_table 17)) /\
    throttling_pauses s' =
      (throttling_pauses (@fresh string {["msmarco" := numbered_table 17]}) +
       length partitions)%nat /\
    backoff_pauses s' =
      (backoff_pauses (@fresh string {["msmarco" := numbered_table 17]}) +
       19 * length partitions)%nat.
Proof.
  split; [vm_compute; discriminate|]. unfold notebook_call.
  apply (one_answer_per_batch embed first_attempt_provider sample_clock
           (notebook_globals sample_inputs) "msmarco"
           (in_embedding_model_deployment_name sample_inputs) "text"
           "text_embedding.aoai_predicted_value" "text-embedding-ada-002"
           (fresh {["msmarco" := numbered_table 17]}) (numbered_table 17) 1).
  - vm_compute. reflexivity.
  - vm_compute. discriminate.
  - vm_compute. reflexivity.
  - reflexivity.
  - intros n input Hn. unfold first_attempt_provider.
    now rewrite (proj2 (Nat.eqb_eq _ _) Hn).
  - intros n input Hn. unfold answers_at, first_attempt_provider.
    now rewrite (proj2 (Nat.eqb_neq _ _) Hn).
Defined.

(** ** The partitioning step on small and on full tables *)

(** X15: a table of 1 to 16 rows is one batch, the table itself: the
    provider is asked for the whole table in one request. *)
Theorem partition_dataframe_single_batch df :
  df_rows df <> [] ->
  df_len df <= maximum_batch_size ->
  partition_dataframe df = Ok [df].
Proof.
  intros Hrows Hsmall.
  destruct (partition_dataframe_spec df Hrows)
    as (partitions & Hsplit & Hconcat & Hcount & Hall & _).
  rewrite Hsplit. f_equal.
  pose proof (ceil_div_bounds (df_len df)) as Hceil.
  assert (Hpos : 0 < df_len df).
  { unfold df_len. destruct (df_rows df); [contradiction | cbn; lia]. }
  unfold maximum_batch_size in Hsmall.
  assert (Hone : length partitions = 1%nat) by lia.
  destruct partitions as [|p [|q partitions]]; try discriminate.
  inversion Hall as [|? ? [Hcols _] _]; subst.
  cbn in Hconcat. rewrite app_nil_r in Hconcat.
  destruct p as [pcols prows], df as [cols rows]. cbn in *. congruence.
Qed.

Lemma partition_dataframe_single_batch_witness :
  df_rows two_rows <> [] /\ df_len two_rows <= maximum_batch_size /\
  partition_dataframe two_rows = Ok [two_rows].
Proof.
  split; [vm_compute; discriminate|]. split; [vm_compute; discriminate|].
  apply (partition_dataframe_single_batch two_rows); vm_compute; discriminate.
Defined.

(** X16: when the number of rows is a positive multiple of 16, every batch
    has exactly 16 rows. *)
Theorem partition_dataframe_full_batches df :
  df_rows df <> [] ->
  df_len df mod maximum_batch_size = 0 ->
  exists partitions,
    partition_dataframe df = Ok partitions /\
    Forall (fun p => df_len p = maximum_batch_size) partitions.
Proof.
  intros Hrows Hmultiple.
  destruct (partition_dataframe_spec df Hrows)
    as (partitions & Hsplit & _ & Hcount & _ & Hsizes).
  exists partitions. split; [exact Hsplit|].
  cbv zeta in Hsizes.
  pose proof (ceil_div_bounds (df_len df)) as Hceil.
  unfold maximum_batch_size in *.
  pose proof (Z.div_mod (df_len df) 16 ltac:(lia)) as Hdiv.
  set (k := length partitions) in *.
  assert (Hn : length (df_rows df) = (16 * k)%nat) by (unfold df_len in *; lia).
  assert (Hk : (k <> 0)%nat).
  { intros Hzero. rewrite Hzero in Hn. destruct (df_rows df); [contradiction | discriminate]. }
  rewrite Hn in Hsizes.
  rewrite Nat.div_mul, Nat.Div0.mod_mul in Hsizes by exact Hk.
  cbn [repeat app] in Hsizes. rewrite Nat.sub_0_r in Hsizes.
  apply Forall_forall. intros p Hp.
  assert (Hin : length (df_rows p) ∈ map (fun p => length (df_rows p)) partitions)
    by (apply list_elem_of_fmap; eauto).
  rewrite Hsizes in Hin. apply list_elem_of_In, repeat_spec in Hin.
  unfold df_len. lia.
Qed.

Lemma partition_dataframe_full_batches_witness :
  df_rows (numbered_table 32) <> [] /\
  exists partitions,
    partition_dataframe (numbered_table 32) = Ok partitions /\
    Forall (fun p => df_len p = maximum_batch_size) partitions.
Proof.
  split; [vm_compute; discriminate|].
  apply (partition_dataframe_full_batches (numbered_table 32)).
  - vm_compute. discriminate.
  - vm_compute. reflexivity.
Defined.

(** ** The constructor of [SampleCsvDatasets] *)

Lemma init_msmarco_values (urlopen : string -> result string)
    (read_csv : string -> string -> list string -> result DataFrame) :
  __init__ urlopen read_csv =
    match urlopen "https://github.com/mayya-sharipova/msmarco/raw/main/msmarco-passagetest2019-unique.tsv" with
    | Ok text =>
        match read_csv text tab ["id"; "text"] with
        | Ok df => Ok {["msmarco" := df]}
        | Raise e => Raise e
        end
    | Raise e => Raise e
    end.
Proof.
  unfold __init__, datasets. cbn [init_loop init_step url].
  destruct (urlopen _) as [text|e]; [|reflexivity].
  unfold _create_dataframe, datasets. cbn.
  destruct (read_csv text tab ["id"; "text"]) as [df|e]; [|reflexivity].
  now rewrite insert_empty.
Qed.

(** X18: on an object that the constructor has built, any dataset name other
    than ["msmarco"] makes [get_dataframe_with_aoai_embeddings] raise
    [KeyError] at once, before any request is sent. *)
Theorem constructed_object_other_name (urlopen : string -> result string)
    (read_csv : string -> string -> list string -> result DataFrame)
    (provider : nat -> string -> list cell -> result (list string)) (clock : nat -> Q)
    (globals : gmap string value)
    (dataset_name embedding_model_deployment_name text_column_name embeddings_column_name
       model_name : string) values :
  __init__ urlopen read_csv = Ok values ->
  dataset_name <> "msmarco" ->
  get_dataframe_with_aoai_embeddings provider clock globals dataset_name
    embedding_model_deployment_name text_column_name embeddings_column_name model_name
    (fresh values)
  = (Raise (KeyError (VStr dataset_name)), fresh values).
Proof.
  intros Hinit Hname. rewrite init_msmarco_values in Hinit.
  unfold get_dataframe_with_aoai_embeddings, bind, gets, lift. cbn [dict_getitem _values fresh].
  destruct (urlopen _) as [text|e]; [|discriminate].
  destruct (read_csv text tab ["id"; "text"]) as [df|e]; [|discriminate].
  injection Hinit as <-. now rewrite lookup_singleton_ne by congruence.
Qed.

Lemma constructed_object_other_name_witness :
  __init__ sample_urlopen sample_read_csv
    = Ok {["msmarco" := mkDataFrame ["id"; "text"] [[CInt 0; CStr "hello"]]]} /\
  get_dataframe_with_aoai_embeddings echo_provider sample_clock
    (notebook_globals sample_inputs) "trec" "text-embedding-ada-002" "text"
    "text_embedding.aoai_predicted_value" "text-embedding-ada-002"
    (fresh {["msmarco" := mkDataFrame ["id"; "text"] [[CInt 0; CStr "hello"]]]})
  = (Raise (KeyError (VStr "trec")),
     fresh {["msmarco" := mkDataFrame ["id"; "text"] [[CInt 0; CStr "hello"]]]}).
Proof.
  split; [reflexivity|].
  apply (constructed_object_other_name sample_urlopen sample_read_csv echo_provider
           sample_clock (notebook_globals sample_inputs) "trec" "text-embedding-ada-002"
           "text" "text_embedding.aoai_predicted_value" "text-embedding-ada-002").
  - reflexivity.
  - discriminate.
Defined.

(** ** [chat_with_my_data]: the request and its outcome *)

Section ChatRequests.
Variable ChatCompletion_create : chat_request -> result (list string).
Variable globals : gmap string value.
Variables chat_query aoai_deployment_name elasticsearch_endpoint elasticsearch_api_key
  index_name : string.

Let run := chat_with_my_data ChatCompletion_create globals chat_query aoai_deployment_name
             elasticsearch_endpoint elasticsearch_api_key index_name.

(** The chat request that carries a given query type and embedding
    parameters. *)
Let request_with (query_type : string) (model endpoint key : value) : chat_request :=
  {| user_message := chat_query;
     dataSources :=
       [{| endpoint := elasticsearch_endpoint;
           encodedApiKey := elasticsearch_api_key;
           indexName := index_name;
           queryType := query_type;
           embeddingModelId := model;
           embeddingEndpoint := endpoint;
           embeddingKey := key |}];
     deployment_id := aoai_deployment_name |}.

(** A call that gets past line 228 sends one request and handles the answer
    once: the first choice is printed, an answer without choices is an
    [IndexError], an exception of the service is raised as it is. *)
Lemma chat_with_my_data_run embedding_config ep w :
  embedding_endpoint globals (config_get embedding_config "aoai_embedding_model")
    (config_get embedding_config "aoai_embedding_key") = Ok ep ->
  let request :=
    request_with
      (select_query_type ep (config_get embedding_config "aoai_embedding_key")
         (config_get embedding_config "elasticsearch_embedding_model"))
      (config_get embedding_config "elasticsearch_embedding_model") ep
      (config_get embedding_config "aoai_embedding_key") in
  run embedding_config w =
    match ChatCompletion_create request with
    | Ok (content :: _) => (Ok tt, ChatWorld (sent w ++ [request]) (printed w ++ [content]))
    | Ok [] => (Raise IndexError, ChatWorld (sent w ++ [request]) (printed w))
    | Raise e => (Raise e, ChatWorld (sent w ++ [request]) (printed w))
    end.
Proof.
  intros Hep request. subst request.
  unfold request_with, run, chat_with_my_data, bind, lift, modify, raise. rewrite Hep.
  cbv beta iota.
  destruct (ChatCompletion_create _) as [[|content choices]|e]; reflexivity.
Qed.
End ChatRequests.

(** X19: without embedding parameters [chat_with_my_data] sends exactly one
    chat request, in lexical mode: its data source has query type
    ["simple"], no embedding model, endpoint or key, and the Elasticsearch
    endpoint, key and index name of the call.  This holds whatever the
    module binds, [openapi] or not. *)
Theorem chat_with_my_data_lexical_request
    (ChatCompletion_create : chat_request -> result (list string))
    (globals : gmap string value)
    (chat_query aoai_deployment_name elasticsearch_endpoint elasticsearch_api_key
       index_name : string) w :
  sent (snd (chat_with_my_data ChatCompletion_create globals chat_query aoai_deployment_name
               elasticsearch_endpoint elasticsearch_api_key index_name ∅ w))
  = sent w ++
    [{| user_message := chat_query;
        dataSources :=
          [{| endpoint := elasticsearch_endpoint;
              encodedApiKey := elasticsearch_api_key;
              indexName := index_name;
              queryType := "simple";
              embeddingModelId := VNone;
              embeddingEndpoint := VNone;
              embeddingKey := VNone |}];
        deployment_id := aoai_deployment_name |}].
Proof.
  rewrite (chat_with_my_data_run ChatCompletion_create globals chat_query aoai_deployment_name
             elasticsearch_endpoint elasticsearch_api_key index_name ∅ VNone)
    by reflexivity.
  cbv zeta.
  assert (Hnone : forall key, config_get ∅ key = VNone)
    by (intros key; unfold config_get; now rewrite lookup_empty).
  rewrite !Hnone.
  change (select_query_type VNone VNone VNone) with "simple".
  destruct (ChatCompletion_create _) as [[|content choices]|e]; reflexivity.
Qed.

(** X20: with an Elasticsearch embedding model identifier as the only
    embedding parameter, the one request sent names that model and is in
    vector mode, unless the identifier is the empty string, which Python
    counts as false: then the mode is lexical.  No name lookup can fail on
    this path. *)
Theorem chat_with_my_data_elasticsearch_request
    (ChatCompletion_create : chat_request -> result (list string))
    (globals : gmap string value)
    (chat_query aoai_deployment_name elasticsearch_endpoint elasticsearch_api_key
       index_name model : string) w :
  sent (snd (chat_with_my_data ChatCompletion_create globals chat_query aoai_deployment_name
               elasticsearch_endpoint elasticsearch_api_key index_name
               {["elasticsearch_embedding_model" := VStr model]} w))
  = sent w ++
    [{| user_message := chat_query;
        dataSources :=
          [{| endpoint := elasticsearch_endpoint;
              encodedApiKey := elasticsearch_api_key;
              indexName := index_name;
              queryType := if String.eqb model "" then "simple" else "vector";
              embeddingModelId := VStr model;
              embeddingEndpoint := VNone;
              embeddingKey := VNone |}];
        deployment_id := aoai_deployment_name |}].
Proof.
  rewrite (chat_with_my_data_run ChatCompletion_create globals chat_query aoai_deployment_name
             elasticsearch_endpoint elasticsearch_api_key index_name
             {["elasticsearch_embedding_model" := VStr model]} VNone)
    by reflexivity.
  cbv zeta.
  assert (He : config_get {["elasticsearch_embedding_model" := VStr model]}
                 "elasticsearch_embedding_model" = VStr model)
    by (unfold config_get; now rewrite lookup_singleton_eq).
  assert (Hk : config_get {["elasticsearch_embedding_model" := VStr model]}
                 "aoai_embedding_key" = VNone)
    by (unfold config_get; now rewrite lookup_singleton_ne by discriminate).
  rewrite He, Hk.
  replace (select_query_type VNone VNone (VStr model))
    with (if String.eqb model "" then "simple" else "vector")
    by (unfold select_query_type, py_or, py_and; cbn; now destruct (String.eqb model "")).
  destruct (ChatCompletion_create _) as [[|content choices]|e]; reflexivity.
Qed.

(** X21: a call without Azure OpenAI embedding parameters asks the chat
    service once and never retries: an exception of the service is raised
    to the caller with nothing printed, an answer prints the content of its
    first choice and nothing else, and an answer without choices is an
    [IndexError]. *)
Theorem chat_with_my_data_outcome
    (ChatCompletion_create : chat_request -> result (list string))
    (globals : gmap string value)
    (chat_query aoai_deployment_name elasticsearch_endpoint elasticsearch_api_key
       index_name : string) embedding_config w :
  truthy (config_get embedding_config "aoai_embedding_model") = false ->
  truthy (config_get embedding_config "aoai_embedding_key") = false ->
  exists request,
    let '(r, w') := chat_with_my_data ChatCompletion_create globals chat_query
                      aoai_deployment_name elasticsearch_endpoint elasticsearch_api_key
                      index_name embedding_config w in
    sent w' = sent w ++ [request] /\
    match ChatCompletion_create request with
    | Ok (content :: _) => r = Ok tt /\ printed w' = printed w ++ [content]
    | Ok [] => r = Raise IndexError /\ printed w' = printed w
    | Raise e => r = Raise e /\ printed w' = printed w
    end.
Proof.
  intros Hmodel Hkey. eexists.
  rewrite (chat_with_my_data_run ChatCompletion_create globals chat_query aoai_deployment_name
             elasticsearch_endpoint elasticsearch_api_key index_name embedding_config VNone)
    by (unfold embedding_endpoint, py_not; now rewrite Hmodel, Hkey).
  cbv zeta.
  destruct (ChatCompletion_create _) as [[|content choices]|e] eqn:Hanswer;
    (split; [reflexivity|]); rewrite Hanswer; split; reflexivity.
Qed.

Lemma chat_with_my_data_outcome_witness :
  exists request,
    let '(r, w') := chat_with_my_data one_choice (notebook_globals sample_inputs)
                      "How's the weather in Jamaica?" "gpt-35-turbo" "https://es.example"
                      "es-key" "msmarco-passagetest2019-unique" ∅ (ChatWorld [] []) in
    sent w' = sent (ChatWorld [] []) ++ [request] /\
    match one_choice request with
    | Ok (content :: _) => r = Ok tt /\ printed w' = printed (ChatWorld [] []) ++ [content]
    | Ok [] => r = Raise IndexError /\ printed w' = printed (ChatWorld [] [])
    | Raise e => r = Raise e /\ printed w' = printed (ChatWorld [] [])
    end.
Proof.
  apply (chat_with_my_data_outcome one_choice (notebook_globals sample_inputs)
           "How's the weather in Jamaica?" "gpt-35-turbo" "https://es.example"
           "es-key" "msmarco-passagetest2019-unique" ∅ (ChatWorld [] []));
    reflexivity.
Defined.

(** X22: if the module bound [openapi] to an object with an [api_base]
    (as [openai] has), a call with an Azure OpenAI embedding model would
    send one request whose embedding endpoint is
    [<api_base>/openai/deployments/<model>/embeddings?api-version=2023-03-15-preview];
    the request is in vector mode only when a non-empty embedding key comes
    with the model, and in lexical mode otherwise, although the endpoint is
    still sent. *)
Theorem chat_with_my_data_aoai_request
    (ChatCompletion_create : chat_request -> result (list string))
    (globals : gmap string value)
    (chat_query aoai_deployment_name elasticsearch_endpoint elasticsearch_api_key
       index_name model api_base : string) (openapi key : value) w :
  globals !! "openapi" = Some openapi ->
  getattr openapi "api_base" = Ok (VStr api_base) ->
  model <> "" ->
  sent (snd (chat_with_my_data ChatCompletion_create globals chat_query aoai_deployment_name
               elasticsearch_endpoint elasticsearch_api_key index_name
               (<["aoai_embedding_key" := key]> {["aoai_embedding_model" := VStr model]}) w))
  = sent w ++
    [{| user_message := chat_query;
        dataSources :=
          [{| endpoint := elasticsearch_endpoint;
              encodedApiKey := elasticsearch_api_key;
              indexName := index_name;
              queryType := if truthy key then "vector" else "simple";
              embeddingModelId := VNone;
              embeddingEndpoint :=
                VStr (api_base +:+ "/openai/deployments/" +:+ model +:+
                      "/embeddings?api-version=2023-03-15-preview");
              embeddingKey := key |}];
        deployment_id := aoai_deployment_name |}].
Proof.
  intros Hbound Hbase Hmodel.
  set (config := <["aoai_embedding_key" := key]> {["aoai_embedding_model" := VStr model]}).
  assert (Hm : config_get config "aoai_embedding_model" = VStr model).
  { unfold config_get, config.
    rewrite lookup_insert_ne, lookup_singleton_eq by discriminate. reflexivity. }
  assert (Hk : config_get config "aoai_embedding_key" = key).
  { unfold config_get, config. now rewrite lookup_insert_eq. }
  assert (He : config_get config "elasticsearch_embedding_model" = VNone).
  { unfold config_get, config.
    rewrite lookup_insert_ne, lookup_singleton_ne by discriminate. reflexivity. }
  assert (Htruthy : truthy (VStr model) = true)
    by (cbn; now destruct (String.eqb_spec model "")).
  rewrite (chat_with_my_data_run ChatCompletion_create globals chat_query aoai_deployment_name
             elasticsearch_endpoint elasticsearch_api_key index_name config
             (VStr (api_base +:+ "/openai/deployments/" +:+ model +:+
                    "/embeddings?api-version=2023-03-15-preview"))).
  - cbv zeta. rewrite Hk, He.
    replace (select_query_type _ key VNone) with (if truthy key then "vector" else "simple").
    + destruct (ChatCompletion_create _) as [[|content choices]|e]; reflexivity.
    + unfold select_query_type, py_or, py_and.
      assert (Hurl : truthy (VStr (api_base +:+ "/openai/deployments/" +:+ model +:+
                                   "/embeddings?api-version=2023-03-15-preview")) = true)
        by (destruct api_base; reflexivity).
      rewrite Hurl. destruct (truthy key) eqn:Hkey; [rewrite Hkey|]; reflexivity.
  - rewrite Hm, Hk. unfold embedding_endpoint, py_not, load_global.
    rewrite Htruthy, Hbound, Hbase. reflexivity.
Qed.

Lemma chat_with_my_data_aoai_request_witness :
  globals_with_openapi sample_inputs !! "openapi"
    = Some (VObject (Attr "api_base" (VStr "https://aoai.example") NoAttr)) /\
  sent (snd (chat_with_my_data one_choice (globals_with_openapi sample_inputs)
               "What's the weather like in Jamaica?" "gpt-35-turbo" "https://es.example"
               "es-key" "msmarco-passagetest2019-unique-text-embedding-ada-002"
               (<["aoai_embedding_key" := VStr "aoai-key"]>
                  {["aoai_embedding_model" := VStr "text-embedding-ada-002"]})
               (ChatWorld [] [])))
  = sent (ChatWorld [] []) ++
    [{| user_message := "What's the weather like in Jamaica?";
        dataSources :=
          [{| endpoint := "https://es.example";
              encodedApiKey := "es-key";
              indexName := "msmarco-passagetest2019-unique-text-embedding-ada-002";
              queryType := if truthy (VStr "aoai-key") then "vector" else "simple";
              embeddingModelId := VNone;
              embeddingEndpoint :=
                VStr ("https://aoai.example" +:+ "/openai/deployments/" +:+
                      "text-embedding-ada-002" +:+
                      "/embeddings?api-version=2023-03-15-preview");
              embeddingKey := VStr "aoai-key" |}];
        deployment_id := "gpt-35-turbo" |}].
Proof.
  split; [vm_compute; reflexivity|].
  apply (chat_with_my_data_aoai_request one_choice (globals_with_openapi sample_inputs)
           "What's the weather like in Jamaica?" "gpt-35-turbo" "https://es.example"
           "es-key" "msmarco-passagetest2019-unique-text-embedding-ada-002"
           "text-embedding-ada-002" "https://aoai.example"
           (VObject (Attr "api_base" (VStr "https://aoai.example") NoAttr))
           (VStr "aoai-key") (ChatWorld [] [])).
  - vm_compute. reflexivity.
  - reflexivity.
  - discriminate.
Defined.

(** ** The reindex monitor *)

Section Monitor.
Variable tasks_get : nat -> result (gmap string value).

(** A status read that reports completion, or not. *)
Let reports (n : nat) (completed : bool) : Prop :=
  exists task, tasks_get n = Ok task /\ truthy (config_get task "completed") = completed.

Lemma poll_reports s completed :
  reports (polls s) completed ->
  exists v,
    poll tasks_get s = (Ok v, Monitor (S (polls s)) (naps s ++ [1%Q]) (output s)) /\
    truthy v = completed.
Proof.
  intros (task & Hget & Hdone). exists (config_get task "completed").
  unfold poll, bind, modify, gets, lift, ret. cbn. rewrite Hget. split; [reflexivity | exact Hdone].
Qed.

(** The loop entered with a false [is_completed], when the first [k] status
    reads report no completion and the next one does. *)
Lemma wait_loop_completes k : forall fuel v s,
  truthy v = false ->
  (forall i, (i < k)%nat -> reports (polls s + i) false) ->
  reports (polls s + k) true ->
  (k + 2 <= fuel)%nat ->
  wait_loop tasks_get fuel v s =
    Some (Ok tt, Monitor (polls s + k + 1) (naps s ++ repeat 1%Q (k + 1)) (output s)).
Proof.
  induction k as [|k IH]; intros fuel v s Hv Hbefore Hthen Hfuel.
  - destruct fuel as [|[|fuel]]; try lia. cbn [wait_loop]. rewrite Hv. cbn [negb].
    rewrite Nat.add_0_r in Hthen.
    destruct (poll_reports s true Hthen) as (v' & -> & Hv'). cbn [wait_loop].
    rewrite Hv'. cbn [negb repeat Nat.add]. do 3 f_equal. lia.
  - destruct fuel as [|fuel]; [lia|]. cbn [wait_loop]. rewrite Hv. cbn [negb].
    assert (Hfirst : reports (polls s) false)
      by (rewrite <- (Nat.add_0_r (polls s)); apply Hbefore; lia).
    destruct (poll_reports s false Hfirst) as (v' & -> & Hv').
    rewrite (IH fuel v' _ Hv'); cbn [polls naps output].
    + f_equal. f_equal. f_equal; [lia|].
      rewrite <- app_assoc. reflexivity.
    + intros i Hi. replace (S (polls s) + i)%nat with (polls s + S i)%nat by lia.
      apply Hbefore. lia.
    + replace (S (polls s) + k)%nat with (polls s + S k)%nat by lia. exact Hthen.
    + lia.
Qed.

Lemma wait_loop_never_ends fuel : forall v s,
  truthy v = false ->
  (forall n, reports n false) ->
  wait_loop tasks_get fuel v s = None.
Proof.
  induction fuel as [|fuel IH]; intros v s Hv Hnever; [reflexivity|].
  cbn [wait_loop]. rewrite Hv. cbn [negb].
  destruct (poll_reports s false (Hnever (polls s))) as (v' & -> & Hv').
  now apply IH.
Qed.
End Monitor.

(** X23: when the first [k] status reads of the task report no completion
    and the next one reports it, the monitor ends after exactly [k + 1]
    pauses of one second and [k + 1] status reads, and then prints
    "Reindexing is complete!"; it pauses and reads the status at least once,
    also when the task is complete from the start ([k = 0]). *)
Theorem wait_for_reindex_completes (tasks_get : nat -> result (gmap string value))
    (k fuel : nat) (s : monitor) :
  (forall i, (i < k)%nat ->
     exists task, tasks_get (polls s + i)%nat = Ok task /\
                  truthy (config_get task "completed") = false) ->
  (exists task, tasks_get (polls s + k)%nat = Ok task /\
                truthy (config_get task "completed") = true) ->
  (k + 2 <= fuel)%nat ->
  wait_for_reindex tasks_get fuel s =
    Some (Ok tt, Monitor (polls s + k + 1) (naps s ++ repeat 1%Q (k + 1))
                   (output s ++ ["Reindexing is complete!"])).
Proof.
  intros Hbefore Hthen Hfuel. unfold wait_for_reindex.
  now rewrite (wait_loop_completes tasks_get k fuel (VInt 0) s eq_refl Hbefore Hthen Hfuel).
Qed.

Lemma wait_for_reindex_completes_witness :
  wait_for_reindex third_read_completes 4 (Monitor 0 [] []) =
    Some (Ok tt, Monitor (0 + 2 + 1) ([] ++ repeat 1%Q (2 + 1))
                   ([] ++ ["Reindexing is complete!"])).
Proof.
  apply (wait_for_reindex_completes third_read_completes 2 4 (Monitor 0 [] [])).
  - intros i Hi. eexists. split; [reflexivity|].
    cbn [polls Nat.add]. destruct i as [|[|i]]; [reflexivity | reflexivity | lia].
  - eexists. split; reflexivity.
  - lia.
Defined.

(** X24: the monitor has no time-out: while every status read reports no
    completion, the loop does not end, whatever the number of iterations it
    is given. *)
Theorem wait_for_reindex_unbounded (tasks_get : nat -> result (gmap string value))
    (fuel : nat) (s : monitor) :
  (forall n, exists task, tasks_get n = Ok task /\
                          truthy (config_get task "completed") = false) ->
  wait_for_reindex tasks_get fuel s = None.
Proof.
  intros Hnever. unfold wait_for_reindex.
  now rewrite (wait_loop_never_ends tasks_get fuel (VInt 0) s eq_refl Hnever).
Qed.

Lemma wait_for_reindex_unbounded_witness :
  wait_for_reindex never_completes 1000 (Monitor 0 [] []) = None.
Proof.
  apply (wait_for_reindex_unbounded never_completes 1000 (Monitor 0 [] [])).
  intros n. eexists. split; reflexivity.
Defined.
